(** * The C binding layer of FLANN (src/cpp/flann.cpp)

    A shallow embedding of the parameter marshalling and of the exported
    entry points of [flann.cpp], and the properties of them that the
    specification states.

    The file follows the source top to bottom: the two name tables, the
    conversions between the [FLANNParameters] block and the loosely typed
    [Params] map, [init_flann_parameters], and then the exported functions,
    each of which is a [try] block with a [catch (runtime_error&)] clause.
    Index construction, search, autotuning, the random generator and the
    timer live in other translation units; they appear here as the fields of
    the class [Collaborators].  [compute_ground_truth_float] (lines 374-381),
    two asserts around one call into the test utilities with no [catch]
    clause, is left out. *)

From Stdlib Require Import ZArith List Ascii String Bool Lia.
From Stdlib Require Import Floats.SpecFloat.
From stdpp Require Import base option gmap strings list.

Open Scope string_scope.
Open Scope Z_scope.

(** ** Scalars *)

(** A C [float].  Values are only stored, copied and compared with zero in
    this file, so the IEEE datum itself is kept ([spec_float] has signed
    zeros, infinities and the NaN). *)
Definition float : Type := spec_float.

(** The [int] literal [0] converted to [float]. *)
Definition float_zero : float := S754_zero false.

(** The [int] literal [-1] converted to [float]: -1 * 2^23 * 2^-23. *)
Definition float_minus_one : float := S754_finite true 8388608 (-23).

(** The [double] literal [0.4] converted to [float]: the binary32 number
    nearest to 4/10 is 13421773 * 2^-25 (bit pattern 0x3ECCCCCD). *)
Definition float_0_4 : float := S754_finite false 13421773 (-25).

(** [x < 0] on floats; false when [x] is the NaN. *)
Definition float_lt0 (x : float) : bool := SFltb x float_zero.

(** [x >= 0] on floats; false when [x] is the NaN. *)
Definition float_ge0 (x : float) : bool := SFleb float_zero x.

(** A [const char*]: the address it holds and the characters found there.
    The source compares such pointers with [==], which looks at the address
    only. *)
Record cstr : Type := { c_addr : N; c_text : string }.

Definition ptr_eqb (a b : cstr) : bool := N.eqb (c_addr a) (c_addr b).

(** ** The name tables (lines 32-33) *)

Definition algos : list cstr :=
  [ {| c_addr := 0; c_text := "linear" |};
    {| c_addr := 1; c_text := "kdtree" |};
    {| c_addr := 2; c_text := "kmeans" |};
    {| c_addr := 3; c_text := "composite" |};
    {| c_addr := 4; c_text := "vptree" |} ].

Definition centers_algos : list cstr :=
  [ {| c_addr := 5; c_text := "random" |};
    {| c_addr := 6; c_text := "gonzales" |};
    {| c_addr := 7; c_text := "kmeanspp" |} ].

(** [ARRAY_LEN(a)] is the number of elements of the array. *)
Definition ARRAY_LEN (a : list cstr) : Z := Z.of_nat (length a).

(** [a[i]] for an index the caller has checked to be in range. *)
Definition table_at (a : list cstr) (i : Z) : cstr :=
  nth (Z.to_nat i) a {| c_addr := 0; c_text := "" |}.

(** The enumerators of [flann.h] used by name in this file.  The header is
    not part of the sources; [parametersToParams] indexes the two tables
    with the enumeration values, so each enumerator is the position of its
    name in the table. *)
Definition LINEAR : Z := 0.
Definition CENTERS_RANDOM : Z := 0.

(** ** FLANNParameters *)

(** The fields of the C struct that [flann.cpp] reads or writes. *)
Record FLANNParameters : Type := {
  log_level : Z;
  log_destination : option cstr;      (* char*, may be NULL *)
  random_seed : Z;
  target_precision : float;
  build_weight : float;
  memory_weight : float;
  sample_fraction : float;
  algorithm : Z;                      (* flann_algorithm_t *)
  checks : Z;
  cb_index : float;
  trees : Z;
  branching : Z;
  iterations : Z;
  centers_init : Z                    (* flann_centers_init_t *)
}.

Definition set_target_precision (v : float) (p : FLANNParameters) :=
  {| log_level := log_level p; log_destination := log_destination p;
     random_seed := random_seed p; target_precision := v;
     build_weight := build_weight p; memory_weight := memory_weight p;
     sample_fraction := sample_fraction p; algorithm := algorithm p;
     checks := checks p; cb_index := cb_index p; trees := trees p;
     branching := branching p; iterations := iterations p;
     centers_init := centers_init p |}.

Definition set_build_weight (v : float) (p : FLANNParameters) :=
  {| log_level := log_level p; log_destination := log_destination p;
     random_seed := random_seed p; target_precision := target_precision p;
     build_weight := v; memory_weight := memory_weight p;
     sample_fraction := sample_fraction p; algorithm := algorithm p;
     checks := checks p; cb_index := cb_index p; trees := trees p;
     branching := branching p; iterations := iterations p;
     centers_init := centers_init p |}.

Definition set_memory_weight (v : float) (p : FLANNParameters) :=
  {| log_level := log_level p; log_destination := log_destination p;
     random_seed := random_seed p; target_precision := target_precision p;
     build_weight := build_weight p; memory_weight := v;
     sample_fraction := sample_fraction p; algorithm := algorithm p;
     checks := checks p; cb_index := cb_index p; trees := trees p;
     branching := branching p; iterations := iterations p;
     centers_init := centers_init p |}.

Definition set_sample_fraction (v : float) (p : FLANNParameters) :=
  {| log_level := log_level p; log_destination := log_destination p;
     random_seed := random_seed p; target_precision := target_precision p;
     build_weight := build_weight p; memory_weight := memory_weight p;
     sample_fraction := v; algorithm := algorithm p;
     checks := checks p; cb_index := cb_index p; trees := trees p;
     branching := branching p; iterations := iterations p;
     centers_init := centers_init p |}.

(** ** Params: the loosely typed option map *)

(** What went wrong in a C++ [throw].  [FLANNException] derives from
    [std::runtime_error], which the entry points catch; anything else
    (a [bad_alloc], say) passes through their [catch] clause. *)
Inductive exn : Type :=
  | RuntimeError (what : string)
  | OtherException.

Definition FLANNException (what : string) : exn := RuntimeError what.

(** Modelled from the spec: the value type of the map ([common.h] is not
    part of the sources).  "A mapping from option-name (string) to a value
    whose concrete type is implied by the key (integer, float, or string)";
    [VEmpty] is the default-constructed value that [params[key]] yields for
    a key that was never assigned. *)
Inductive Variant : Type :=
  | VEmpty
  | VInt (i : Z)
  | VFloat (f : float)
  | VStr (s : cstr).

Abbreviation Params := (gmap string Variant).

(** [params[key]].  On a missing key the C++ map also stores the empty
    value under that key; a later read of the key sees the same empty value
    either way, so the store is not modelled. *)
Definition params_at (params : Params) (key : string) : Variant :=
  default VEmpty (params !! key).

Section Conversions.

(** The exception a failed conversion of a [Variant] throws. *)
Variable variant_error : exn.

(** Modelled from the spec: the casts [(int)v], [(float)v] and
    [(const char* )v] give back the value that was assigned and throw
    when the value holds something else (this is what the [try] blocks of
    [paramsToParameters] guard against). *)
Definition as_int (v : Variant) : exn + Z :=
  match v with VInt i => inr i | _ => inl variant_error end.

Definition as_float (v : Variant) : exn + float :=
  match v with VFloat f => inr f | _ => inl variant_error end.

Definition as_cstr (v : Variant) : exn + cstr :=
  match v with VStr s => inr s | _ => inl variant_error end.

(** [try { x = (int)params[key]; } catch (...) { x = dflt; }] *)
Definition int_or (dflt : Z) (params : Params) (key : string) : Z :=
  match as_int (params_at params key) with
  | inr i => i
  | inl _ => dflt
  end.

Definition float_or (dflt : float) (params : Params) (key : string) : float :=
  match as_float (params_at params key) with
  | inr f => f
  | inl _ => dflt
  end.

(** The string literal of line 50.  The compiler may give it storage of
    its own or share that of [centers_algos[0]], which has the same
    characters. *)
Variable literal_pooled : bool.

Definition literal_random : cstr :=
  if literal_pooled then table_at centers_algos 0
  else {| c_addr := 8; c_text := "random" |}.

(** Lines 36-58. *)
Definition parametersToParams (parameters : FLANNParameters) : Params :=
  let p : Params := ∅ in
  let p := <["checks" := VInt (checks parameters)]> p in
  let p := <["cb_index" := VFloat (cb_index parameters)]> p in
  let p := <["trees" := VInt (trees parameters)]> p in
  let p := <["max-iterations" := VInt (iterations parameters)]> p in
  let p := <["branching" := VInt (branching parameters)]> p in
  let p := <["target-precision" := VFloat (target_precision parameters)]> p in
  let p :=
    if (0 <=? centers_init parameters)
       && (centers_init parameters <? ARRAY_LEN centers_algos)
    then <["centers-init" :=
             VStr (table_at centers_algos (centers_init parameters))]> p
    else <["centers-init" := VStr literal_random]> p in
  let p :=
    if (0 <=? algorithm parameters)
       && (algorithm parameters <? ARRAY_LEN algos)
    then <["algorithm" := VStr (table_at algos (algorithm parameters))]> p
    else p in
  p.

(** The loop of lines 98-106 from position [algo_id] on, [tbl] being the
    rest of the table: the first entry whose address is the one stored
    under "centers-init" wins; a failed conversion is swallowed and the
    loop goes on; [acc] is the value assigned before the loop. *)
Fixpoint centers_init_loop (tbl : list cstr) (algo_id : Z)
    (params : Params) (acc : Z) : Z :=
  match tbl with
  | [] => acc
  | algo :: rest =>
      match as_cstr (params_at params "centers-init") with
      | inr s =>
          if ptr_eqb algo s then algo_id
          else centers_init_loop rest (algo_id + 1) params acc
      | inl _ => centers_init_loop rest (algo_id + 1) params acc
      end
  end.

(** The loop of lines 108-114; here the conversion is outside any [try],
    so its failure leaves the function. *)
Fixpoint algorithm_loop (tbl : list cstr) (algo_id : Z)
    (params : Params) (acc : Z) : exn + Z :=
  match tbl with
  | [] => inr acc
  | algo :: rest =>
      match as_cstr (params_at params "algorithm") with
      | inr s =>
          if ptr_eqb algo s then inr algo_id
          else algorithm_loop rest (algo_id + 1) params acc
      | inl e => inl e
      end
  end.

(** Lines 60-116.  [p0] is the content of the local [FLANNParameters p]
    before any assignment; the fields the function does not assign keep
    it. *)
Definition paramsToParameters (p0 : FLANNParameters) (params : Params)
    : exn + FLANNParameters :=
  let checks' := int_or (-1) params "checks" in
  let cb_index' := float_or float_0_4 params "cb_index" in
  let trees' := int_or (-1) params "trees" in
  let iterations' := int_or (-1) params "max-iterations" in
  let branching' := int_or (-1) params "branching" in
  let target_precision' := float_or float_minus_one params "target-precision" in
  let centers_init' := centers_init_loop centers_algos 0 params CENTERS_RANDOM in
  match algorithm_loop algos 0 params LINEAR with
  | inl e => inl e
  | inr algorithm' =>
      inr {| log_level := log_level p0;
             log_destination := log_destination p0;
             random_seed := random_seed p0;
             target_precision := target_precision';
             build_weight := build_weight p0;
             memory_weight := memory_weight p0;
             sample_fraction := sample_fraction p0;
             algorithm := algorithm';
             checks := checks';
             cb_index := cb_index';
             trees := trees';
             branching := branching';
             iterations := iterations';
             centers_init := centers_init' |}
  end.

End Conversions.

(** ** The collaborators of the binding layer *)

(** An [NNIndex*] that is not null: the address of an index object. *)
Definition handle : Type := positive.

(** The address of an object in the caller's memory. *)
Definition loc : Type := positive.

(** [Dataset<float>(rows, cols, data)]: a view of [rows] x [cols] numbers.
    The pointer behind an input-only matrix is modelled by the numbers it
    points to. *)
Record Dataset : Type := { ds_rows : Z; ds_cols : Z; ds_data : list float }.

(** [Dataset<int>(rows, cols, data)]. *)
Record IntDataset : Type := { ids_rows : Z; ids_cols : Z; ids_data : list Z }.

(** [Autotune autotuner(build_weight, memory_weight, sample_fraction)]. *)
Record Autotune : Type := {
  at_build_weight : float;
  at_memory_weight : float;
  at_sample_fraction : float
}.

(** An argument of a [printf]-style log call.  [ArgElapsed] stands for the
    reading [t.value] of a [StartStopTimer]; wall-clock time is not
    modelled. *)
Inductive LogArg : Type :=
  | ArgString (s : string)
  | ArgFloat (f : float)
  | ArgElapsed.

(** What this file asks of the rest of the library, in program order. *)
Inductive Event : Type :=
  | EvSeedRandom (seed : Z)
  | EvLogInfo (fmt : string) (args : list LogArg)
  | EvLogError (fmt : string) (args : list LogArg)
  | EvCreateIndex (algo : cstr) (data : Dataset) (params : Params)
  | EvBuildIndex (index : handle)
  | EvAutotuneNew (a : Autotune)
  | EvEstimateBuildIndexParams (a : Autotune) (data : Dataset) (precision : float)
  | EvEstimateSearchParams (a : Autotune) (index : handle) (data : Dataset)
      (precision : float) (params : Params)
  | EvSearchForNeighbors (index : handle) (testset : Dataset) (nn : Z)
      (params : Params)
  | EvFindNeighbors (index : handle) (radius : float) (query : list float)
      (params : Params)
  | EvDelete (index : handle)
  | EvKMeansTreeNew (data : Dataset) (params : Params)
  | EvGetClusterCenters (index : handle) (clusters : Z)
  | EvTestIndexPrecision (index : handle) (precision : float) (nn skip : Z)
  | EvTestIndexChecks (index : handle) (checks : Z) (nn skip : Z).

(** The autotuner is at work in the events that name it. *)
Definition is_autotune_event (e : Event) : bool :=
  match e with
  | EvAutotuneNew _
  | EvEstimateBuildIndexParams _ _ _
  | EvEstimateSearchParams _ _ _ _ _ => true
  | _ => false
  end.

Definition autotuner_invoked (evs : list Event) : bool :=
  existsb is_autotune_event evs.

Definition is_seed_event (e : Event) : bool :=
  match e with EvSeedRandom _ => true | _ => false end.

Definition reseeded (evs : list Event) : bool := existsb is_seed_event evs.

(** The outcome of a call into another translation unit: the state of the
    library after it and either the value returned or the exception that
    left the call. *)
Definition answer (Ext A : Type) : Type := (exn + A) * Ext.

(** The functions and objects [flann.cpp] uses and does not define.  [Ext]
    is the state they keep (the index objects, the generator, the sinks of
    the logger); none of them is handed a pointer into the caller's
    parameter block.  A matrix the callee fills ([result], [dists]) goes in
    with its present content and comes back with the new one. *)
Class Collaborators : Type := {
  Ext : Type;
  (** the exception of a failed [Variant] conversion, see [as_int] *)
  variant_error : exn;
  (** whether the literal of line 50 shares storage with the table *)
  literal_pooled : bool;
  (** what an unassigned local [FLANNParameters] holds *)
  stack_garbage : FLANNParameters;
  seed_random : Z → Ext → Ext;
  create_index : cstr → Dataset → Params → Ext → answer Ext handle;
  buildIndex : handle → Ext → answer Ext unit;
  veclen : handle → Ext → Z;
  delete_index : handle → Ext → Ext;
  estimateBuildIndexParams : Autotune → Dataset → float → Ext → answer Ext Params;
  estimateSearchParams :
    Autotune → handle → Dataset → float → Params → Ext → answer Ext Params;
  search_for_neighbors :
    handle → Dataset → Z → Params → list Z → list float → Ext →
    answer Ext unit * (list Z * list float);
  findNeighbors :
    handle → float → list float → Params → Ext → answer Ext (list (Z * float));
  KMeansTree_new : Dataset → Params → Ext → answer Ext handle;
  getClusterCenters :
    handle → Z → list float → Ext → answer Ext Z * list float;
  test_index_precision :
    handle → Dataset → Dataset → IntDataset → float → Z → Z → Z → Ext →
    answer Ext float * Z;
  test_index_checks :
    handle → Dataset → Dataset → IntDataset → Z → float → Z → Z → Ext →
    answer Ext float * float
}.

Section Binding.

Context `{C : Collaborators}.

(** ** The state a call runs in *)

(** The process-wide state of the library and the caller's memory.  The
    caller's objects are kept by kind: parameter blocks, [float] arrays and
    [int] arrays, each under the address a pointer to it holds.  [live] is
    the set of index objects created and not yet deleted. *)
Record World : Type := {
  ext : Ext;
  logger_level : Z;
  logger_destination : option cstr;
  flann_distance_type : Z;
  flann_minkowski_order : Z;
  live : gset handle;
  mem_params : gmap loc FLANNParameters;
  mem_floats : gmap loc (list float);
  mem_ints : gmap loc (list Z)
}.

Definition with_ext (x : Ext) (w : World) : World :=
  {| ext := x; logger_level := logger_level w;
     logger_destination := logger_destination w;
     flann_distance_type := flann_distance_type w;
     flann_minkowski_order := flann_minkowski_order w;
     live := live w; mem_params := mem_params w;
     mem_floats := mem_floats w; mem_ints := mem_ints w |}.

Definition with_logger_level (v : Z) (w : World) : World :=
  {| ext := ext w; logger_level := v;
     logger_destination := logger_destination w;
     flann_distance_type := flann_distance_type w;
     flann_minkowski_order := flann_minkowski_order w;
     live := live w; mem_params := mem_params w;
     mem_floats := mem_floats w; mem_ints := mem_ints w |}.

Definition with_logger_destination (v : option cstr) (w : World) : World :=
  {| ext := ext w; logger_level := logger_level w;
     logger_destination := v;
     flann_distance_type := flann_distance_type w;
     flann_minkowski_order := flann_minkowski_order w;
     live := live w; mem_params := mem_params w;
     mem_floats := mem_floats w; mem_ints := mem_ints w |}.

Definition with_distance (t order : Z) (w : World) : World :=
  {| ext := ext w; logger_level := logger_level w;
     logger_destination := logger_destination w;
     flann_distance_type := t;
     flann_minkowski_order := order;
     live := live w; mem_params := mem_params w;
     mem_floats := mem_floats w; mem_ints := mem_ints w |}.

Definition with_live (s : gset handle) (w : World) : World :=
  {| ext := ext w; logger_level := logger_level w;
     logger_destination := logger_destination w;
     flann_distance_type := flann_distance_type w;
     flann_minkowski_order := flann_minkowski_order w;
     live := s; mem_params := mem_params w;
     mem_floats := mem_floats w; mem_ints := mem_ints w |}.

Definition with_mem_params (m : gmap loc FLANNParameters) (w : World) : World :=
  {| ext := ext w; logger_level := logger_level w;
     logger_destination := logger_destination w;
     flann_distance_type := flann_distance_type w;
     flann_minkowski_order := flann_minkowski_order w;
     live := live w; mem_params := m;
     mem_floats := mem_floats w; mem_ints := mem_ints w |}.

Definition with_mem_floats (m : gmap loc (list float)) (w : World) : World :=
  {| ext := ext w; logger_level := logger_level w;
     logger_destination := logger_destination w;
     flann_distance_type := flann_distance_type w;
     flann_minkowski_order := flann_minkowski_order w;
     live := live w; mem_params := mem_params w;
     mem_floats := m; mem_ints := mem_ints w |}.

Definition with_mem_ints (m : gmap loc (list Z)) (w : World) : World :=
  {| ext := ext w; logger_level := logger_level w;
     logger_destination := logger_destination w;
     flann_distance_type := flann_distance_type w;
     flann_minkowski_order := flann_minkowski_order w;
     live := live w; mem_params := mem_params w;
     mem_floats := mem_floats w; mem_ints := m |}.

(** ** Computations *)

(** How a piece of code ends: it yields a value, an exception leaves it, or
    it [Crash]es: undefined behaviour (a null or dangling pointer is
    dereferenced, an array is written past its end) or a failed [assert].
    The first two carry the state reached and the events of the run, oldest
    first. *)
Inductive res (A : Type) : Type :=
  | Ret (a : A) (w : World) (evs : list Event)
  | Raise (e : exn) (w : World) (evs : list Event)
  | Crash.

Arguments Ret {A} a w evs.
Arguments Raise {A} e w evs.
Arguments Crash {A}.

Definition M (A : Type) : Type := World → res A.

Definition ret {A : Type} (a : A) : M A := λ w, Ret a w [].

Definition bind {A B : Type} (m : M A) (k : A → M B) : M B :=
  λ w,
    match m w with
    | Ret a w1 e1 =>
        match k a w1 with
        | Ret b w2 e2 => Ret b w2 (e1 ++ e2)
        | Raise x w2 e2 => Raise x w2 (e1 ++ e2)
        | Crash => Crash
        end
    | Raise x w1 e1 => Raise x w1 e1
    | Crash => Crash
    end.

Notation "x <- m ;; k" := (bind m (λ x, k))
  (at level 100, m at next level, right associativity,
   format "'[v' x  <-  m  ;;  '/' k ']'").
Notation "m ;;; k" := (bind m (λ _, k))
  (at level 100, right associativity, format "'[v' m  ;;;  '/' k ']'").

Definition throw {A : Type} (e : exn) : M A := λ w, Raise e w [].

Definition crash {A : Type} : M A := λ _, Crash.

Definition emit (e : Event) : M unit := λ w, Ret tt w [e].

(** A value or the exception of a pure conversion. *)
Definition lift {A : Type} (r : exn + A) : M A :=
  match r with inr a => ret a | inl e => throw e end.

(** [try { body } catch (runtime_error& e) { handler(e.what()) }]. *)
Definition try_catch {A : Type} (body : M A) (handler : string → M A) : M A :=
  λ w,
    match body w with
    | Raise (RuntimeError what) w1 e1 =>
        match handler what w1 with
        | Ret b w2 e2 => Ret b w2 (e1 ++ e2)
        | Raise x w2 e2 => Raise x w2 (e1 ++ e2)
        | Crash => Crash
        end
    | r => r
    end.

(** Run [body] and then [cleanup], also when an exception leaves [body]:
    the destructor of a local object. *)
Definition with_cleanup {A : Type} (body : M A) (cleanup : M unit) : M A :=
  λ w,
    match body w with
    | Ret a w1 e1 =>
        match cleanup w1 with
        | Ret _ w2 e2 => Ret a w2 (e1 ++ e2)
        | Raise x w2 e2 => Raise x w2 (e1 ++ e2)
        | Crash => Crash
        end
    | Raise x w1 e1 =>
        match cleanup w1 with
        | Ret _ w2 e2 => Raise x w2 (e1 ++ e2)
        | Raise _ _ _ => Crash
        | Crash => Crash
        end
    | Crash => Crash
    end.

(** A call into another translation unit: the event is recorded, the
    library state moves on, and the answer is a value or an exception. *)
Definition call {A : Type} (e : Event) (f : Ext → answer Ext A) : M A :=
  λ w,
    match f (ext w) with
    | (inr a, x) => Ret a (with_ext x w) [e]
    | (inl err, x) => Raise err (with_ext x w) [e]
    end.

(** ** The caller's memory *)

Definition load_params (p : option loc) : M FLANNParameters :=
  λ w,
    match p with
    | None => Crash
    | Some l =>
        match mem_params w !! l with
        | Some v => Ret v w []
        | None => Crash
        end
    end.

Definition store_params (p : option loc) (v : FLANNParameters) : M unit :=
  λ w,
    match p with
    | None => Crash
    | Some l =>
        match mem_params w !! l with
        | Some _ => Ret tt (with_mem_params (<[l := v]> (mem_params w)) w) []
        | None => Crash
        end
    end.

(** [p->field = v] for one of the setters above. *)
Definition assign_field (p : option loc)
    (set : FLANNParameters → FLANNParameters) : M unit :=
  v <- load_params p ;; store_params p (set v).

Definition load_floats (p : option loc) : M (list float) :=
  λ w,
    match p with
    | None => Crash
    | Some l =>
        match mem_floats w !! l with
        | Some v => Ret v w []
        | None => Crash
        end
    end.

Definition store_floats (p : option loc) (v : list float) : M unit :=
  λ w,
    match p with
    | None => Crash
    | Some l =>
        match mem_floats w !! l with
        | Some _ => Ret tt (with_mem_floats (<[l := v]> (mem_floats w)) w) []
        | None => Crash
        end
    end.

Definition load_ints (p : option loc) : M (list Z) :=
  λ w,
    match p with
    | None => Crash
    | Some l =>
        match mem_ints w !! l with
        | Some v => Ret v w []
        | None => Crash
        end
    end.

Definition store_ints (p : option loc) (v : list Z) : M unit :=
  λ w,
    match p with
    | None => Crash
    | Some l =>
        match mem_ints w !! l with
        | Some _ => Ret tt (with_mem_ints (<[l := v]> (mem_ints w)) w) []
        | None => Crash
        end
    end.

(** [p[i] = v] on an [int] array: defined only inside the array. *)
Definition write_int (p : option loc) (i : Z) (v : Z) : M unit :=
  a <- load_ints p ;;
  if (0 <=? i) && (i <? Z.of_nat (length a))
  then store_ints p (<[Z.to_nat i := v]> a)
  else crash.

(** [p[i] = v] on a [float] array. *)
Definition write_float (p : option loc) (i : Z) (v : float) : M unit :=
  a <- load_floats p ;;
  if (0 <=? i) && (i <? Z.of_nat (length a))
  then store_floats p (<[Z.to_nat i := v]> a)
  else crash.

(** [p[i]] on an [int] array. *)
Definition read_int (p : option loc) (i : Z) : M Z :=
  a <- load_ints p ;;
  if 0 <=? i
  then match a !! Z.to_nat i with Some v => ret v | None => crash end
  else crash.

(** [p[i]] on a [float] array. *)
Definition read_float (p : option loc) (i : Z) : M float :=
  a <- load_floats p ;;
  if 0 <=? i
  then match a !! Z.to_nat i with Some v => ret v | None => crash end
  else crash.

(** An index pointer handed in by the caller is used: the object has to
    be there. *)
Definition check_live (index : handle) : M unit :=
  λ w, if bool_decide (index ∈ live w) then Ret tt w [] else Crash.

(** ** The logger, the generator and the index objects *)

(** The character the format strings of the source end with. *)
Definition newline : string := String "010"%char EmptyString.

Definition logger_info (fmt : string) (args : list LogArg) : M unit :=
  emit (EvLogInfo fmt args).

Definition logger_error (fmt : string) (args : list LogArg) : M unit :=
  emit (EvLogError fmt args).

Definition logger_setLevel (level : Z) : M unit :=
  λ w, Ret tt (with_logger_level level w) [].

Definition logger_setDestination (destination : option cstr) : M unit :=
  λ w, Ret tt (with_logger_destination destination w) [].

Definition do_seed_random (seed : Z) : M unit :=
  λ w, Ret tt (with_ext (seed_random seed (ext w)) w) [EvSeedRandom seed].

(** [create_index(algo, data, params)]: the new object is live. *)
Definition do_create_index (algo : cstr) (data : Dataset) (params : Params)
    : M handle :=
  index <- call (EvCreateIndex algo data params) (create_index algo data params) ;;
  λ w, Ret index (with_live ({[index]} ∪ live w) w) [].

Definition do_buildIndex (index : handle) : M unit :=
  call (EvBuildIndex index) (buildIndex index).

(** [delete index]. *)
Definition do_delete (index : handle) : M unit :=
  λ w,
    Ret tt (with_live (live w ∖ {[index]})
              (with_ext (delete_index index (ext w)) w))
      [EvDelete index].

(** The destructor of an index object that lives on the stack. *)
Definition do_destroy (index : handle) : M unit :=
  λ w, Ret tt (with_ext (delete_index index (ext w)) w) [EvDelete index].

(** [search_for_neighbors(index, testset, result_set, dists_set, params)]
    with [result_set] and [dists_set] the views of the caller's arrays
    [result] and [dists]. *)
Definition do_search_for_neighbors (index : handle) (testset : Dataset)
    (nn : Z) (result dists : option loc) (params : Params) : M unit :=
  r0 <- load_ints result ;;
  d0 <- load_floats dists ;;
  λ w,
    match search_for_neighbors index testset nn params r0 d0 (ext w) with
    | (a, (r1, d1)) =>
        (store_ints result r1 ;;;
         store_floats dists d1 ;;;
         call (EvSearchForNeighbors index testset nn params) (λ _, a)) w
    end.

(** ** Lines 121-149 *)

Definition flann_log_verbosity (level : Z) : M unit :=
  if 0 <=? level then logger_setLevel level else ret tt.

Definition flann_log_destination (destination : option cstr) : M unit :=
  logger_setDestination destination.

Definition flann_set_distance_type (distance_type order : Z) : M unit :=
  λ w, Ret tt (with_distance distance_type order w) [].

Definition init_flann_parameters (p : option loc) : M unit :=
  match p with
  | None => ret tt
  | Some _ =>
      fp <- load_params p ;;
      flann_log_verbosity (log_level fp) ;;;
      flann_log_destination (log_destination fp) ;;;
      if 0 <? random_seed fp then do_seed_random (random_seed fp) else ret tt
  end.

(** The [catch] clause every entry point ends with. *)
Definition caught {A : Type} (sentinel : A) (what : string) : M A :=
  logger_error ("Caught exception: %s" +:+ newline) [ArgString what] ;;;
  ret sentinel.

(** [(const char* )params["algorithm"]]. *)
Definition algorithm_name (params : Params) : M cstr :=
  lift (as_cstr variant_error (params_at params "algorithm")).

(** ** flann_build_index (lines 152-209) *)

(** Lines 169-176: the index the caller asked for. *)
Definition build_as_given (fp : FLANNParameters) (inputData : Dataset)
    : M handle :=
  let params := parametersToParams literal_pooled fp in
  logger_info ("Building index" +:+ newline) [] ;;;
  algo <- algorithm_name params ;;
  index <- do_create_index algo inputData params ;;
  do_buildIndex index ;;;
  logger_info ("Building index took: %g" +:+ newline) [ArgElapsed] ;;;
  ret index.

(** Lines 186-190: the index the autotuner chooses, with the parameters it
    was built and is to be searched with. *)
Definition build_autotuned (fp : FLANNParameters) (inputData : Dataset)
    (target_precision : float) : M (handle * Params) :=
  let autotuner :=
    {| at_build_weight := build_weight fp;
       at_memory_weight := memory_weight fp;
       at_sample_fraction := sample_fraction fp |} in
  emit (EvAutotuneNew autotuner) ;;;
  params <- call (EvEstimateBuildIndexParams autotuner inputData target_precision)
              (estimateBuildIndexParams autotuner inputData target_precision) ;;
  algo <- algorithm_name params ;;
  index <- do_create_index algo inputData params ;;
  do_buildIndex index ;;;
  params <- call (EvEstimateSearchParams autotuner index inputData
                    target_precision params)
              (estimateSearchParams autotuner index inputData
                 target_precision params) ;;
  ret (index, params).

Definition flann_build_index_body (dataset : list float) (rows cols : Z)
    (speedup : option loc) (flann_params : option loc) : M (option handle) :=
  (if flann_params is None
   then throw (FLANNException "The index_params agument must be non-null")
   else ret tt) ;;;
  init_flann_parameters flann_params ;;;
  let inputData := {| ds_rows := rows; ds_cols := cols; ds_data := dataset |} in
  fp <- load_params flann_params ;;
  let target_precision := target_precision fp in
  let build_weight := build_weight fp in
  let memory_weight := memory_weight fp in
  let sample_fraction := sample_fraction fp in
  index <-
    (if float_lt0 target_precision
     then build_as_given fp inputData
     else
       (if float_lt0 build_weight
        then throw (FLANNException "The index_params.build_weight must be positive.")
        else ret tt) ;;;
       (if float_lt0 memory_weight
        then throw (FLANNException "The index_params.memory_weight must be positive.")
        else ret tt) ;;;
       ip <- build_autotuned fp inputData target_precision ;;
       let '(index, params) := ip in
       tuned <- lift (paramsToParameters variant_error stack_garbage params) ;;
       store_params flann_params tuned ;;;
       assign_field flann_params (set_target_precision target_precision) ;;;
       assign_field flann_params (set_build_weight build_weight) ;;;
       assign_field flann_params (set_memory_weight memory_weight) ;;;
       assign_field flann_params (set_sample_fraction sample_fraction) ;;;
       (if speedup is None
        then ret tt
        else
          s <- lift (as_float variant_error (params_at params "speedup")) ;;
          write_float speedup 0 s) ;;;
       ret index) ;;
  ret (Some index).

Definition flann_build_index (dataset : list float) (rows cols : Z)
    (speedup : option loc) (flann_params : option loc) : M (option handle) :=
  try_catch (flann_build_index_body dataset rows cols speedup flann_params)
    (caught None).

(** ** flann_find_nearest_neighbors (lines 212-258) *)

Definition flann_find_nearest_neighbors_body (dataset : list float)
    (rows cols : Z) (testset : list float) (tcount : Z)
    (result dists : option loc) (nn : Z) (flann_params : option loc) : M Z :=
  init_flann_parameters flann_params ;;;
  let inputData := {| ds_rows := rows; ds_cols := cols; ds_data := dataset |} in
  fp <- load_params flann_params ;;
  let target_precision := target_precision fp in
  index <-
    (if float_lt0 target_precision
     then build_as_given fp inputData
     else
       logger_info ("Build index: %g" +:+ newline) [ArgFloat (build_weight fp)] ;;;
       ip <- build_autotuned fp inputData target_precision ;;
       let '(index, params) := ip in
       tuned <- lift (paramsToParameters variant_error stack_garbage params) ;;
       store_params flann_params tuned ;;;
       ret index) ;;
  logger_info ("Finished creating the index." +:+ newline) [] ;;;
  logger_info ("Searching for nearest neighbors." +:+ newline) [] ;;;
  fp' <- load_params flann_params ;;
  let searchParams : Params := <["checks" := VInt (checks fp')]> ∅ in
  do_search_for_neighbors index
    {| ds_rows := tcount; ds_cols := cols; ds_data := testset |}
    nn result dists searchParams ;;;
  do_delete index ;;;
  ret 0.

Definition flann_find_nearest_neighbors (dataset : list float)
    (rows cols : Z) (testset : list float) (tcount : Z)
    (result dists : option loc) (nn : Z) (flann_params : option loc) : M Z :=
  try_catch
    (flann_find_nearest_neighbors_body dataset rows cols testset tcount
       result dists nn flann_params)
    (caught (-1)).

(** ** flann_find_nearest_neighbors_index (lines 261-289) *)

(** [index->veclen()]. *)
Definition get_veclen (index : handle) : M Z :=
  λ w, Ret (veclen index (ext w)) w [].

Definition flann_find_nearest_neighbors_index_body (index_ptr : option handle)
    (testset : list float) (tcount : Z) (result dists : option loc)
    (nn checks : Z) (flann_params : option loc) : M Z :=
  init_flann_parameters flann_params ;;;
  match index_ptr with
  | None => throw (FLANNException "Invalid index")
  | Some index =>
      check_live index ;;;
      length <- get_veclen index ;;
      let searchParams : Params := <["checks" := VInt checks]> ∅ in
      do_search_for_neighbors index
        {| ds_rows := tcount; ds_cols := length; ds_data := testset |}
        nn result dists searchParams ;;;
      logger_info ("Searching took %g seconds" +:+ newline) [ArgElapsed] ;;;
      ret 0
  end.

Definition flann_find_nearest_neighbors_index (index_ptr : option handle)
    (testset : list float) (tcount : Z) (result dists : option loc)
    (nn checks : Z) (flann_params : option loc) : M Z :=
  try_catch
    (flann_find_nearest_neighbors_index_body index_ptr testset tcount
       result dists nn checks flann_params)
    (caught (-1)).

(** ** flann_radius_search (lines 292-332) *)

(** The loop of lines 321-324 from position [i] on.  [found] is what is
    left of the result set: the pairs of [neighbors[j]] and [distances[j]]
    for [i <= j < count_nn]. *)
Fixpoint copy_neighbors (found : list (Z * float)) (i : Z)
    (indices dists : option loc) : M unit :=
  match found with
  | [] => ret tt
  | (neighbor, distance) :: rest =>
      write_int indices i neighbor ;;;
      write_float dists i distance ;;;
      copy_neighbors rest (i + 1) indices dists
  end.

Definition flann_radius_search_body (index_ptr : option handle)
    (query : list float) (indices dists : option loc) (max_nn : Z)
    (radius : float) (checks : Z) (flann_params : option loc) : M Z :=
  init_flann_parameters flann_params ;;;
  match index_ptr with
  | None => throw (FLANNException "Invalid index")
  | Some index =>
      check_live index ;;;
      length <- get_veclen index ;;
      let searchParams : Params := <["checks" := VInt checks]> ∅ in
      resultSet <- call (EvFindNeighbors index radius query searchParams)
                     (findNeighbors index radius query searchParams) ;;
      let count_nn := Z.of_nat (List.length resultSet) in
      copy_neighbors resultSet 0 indices dists ;;;
      ret count_nn
  end.

Definition flann_radius_search (index_ptr : option handle)
    (query : list float) (indices dists : option loc) (max_nn : Z)
    (radius : float) (checks : Z) (flann_params : option loc) : M Z :=
  try_catch
    (flann_radius_search_body index_ptr query indices dists max_nn radius
       checks flann_params)
    (caught (-1)).

(** ** flann_free_index (lines 335-352) *)

Definition flann_free_index_body (index_ptr : option handle)
    (flann_params : option loc) : M Z :=
  init_flann_parameters flann_params ;;;
  match index_ptr with
  | None => throw (FLANNException "Invalid index")
  | Some index =>
      check_live index ;;;
      do_delete index ;;;
      ret 0
  end.

Definition flann_free_index (index_ptr : option handle)
    (flann_params : option loc) : M Z :=
  try_catch (flann_free_index_body index_ptr flann_params) (caught (-1)).

(** ** flann_compute_cluster_centers (lines 354-371) *)

(** [kmeans.getClusterCenters(clusters, result)]. *)
Definition do_getClusterCenters (kmeans : handle) (clusters : Z)
    (result : option loc) : M Z :=
  r0 <- load_floats result ;;
  λ w,
    match getClusterCenters kmeans clusters r0 (ext w) with
    | (a, r1) =>
        (store_floats result r1 ;;;
         call (EvGetClusterCenters kmeans clusters) (λ _, a)) w
    end.

Definition flann_compute_cluster_centers_body (dataset : list float)
    (rows cols clusters : Z) (result : option loc)
    (flann_params : option loc) : M Z :=
  init_flann_parameters flann_params ;;;
  let inputData := {| ds_rows := rows; ds_cols := cols; ds_data := dataset |} in
  fp <- load_params flann_params ;;
  let params := parametersToParams literal_pooled fp in
  kmeans <- call (EvKMeansTreeNew inputData params)
              (KMeansTree_new inputData params) ;;
  with_cleanup
    (do_buildIndex kmeans ;;;
     clusterNum <- do_getClusterCenters kmeans clusters result ;;
     ret clusterNum)
    (do_destroy kmeans).

Definition flann_compute_cluster_centers (dataset : list float)
    (rows cols clusters : Z) (result : option loc)
    (flann_params : option loc) : M Z :=
  try_catch
    (flann_compute_cluster_centers_body dataset rows cols clusters result
       flann_params)
    (caught (-1)).

(** ** test_with_precision and test_with_checks (lines 384-420) *)

(** [assert(c)]. *)
Definition assert (c : bool) : M unit := if c then ret tt else crash.

Definition test_with_precision_body (index_ptr : option handle)
    (dataset : list float) (dshape : Z * Z) (testset : list float)
    (tshape : Z * Z) (matches : list Z) (mshape : Z * Z) (nn : Z)
    (precision : float) (checks : option loc) (skip : Z) : M float :=
  match index_ptr with
  | None => throw (FLANNException "Invalid index")
  | Some index =>
      check_live index ;;;
      c0 <- read_int checks 0 ;;
      λ w,
        match test_index_precision index
                {| ds_rows := dshape.1; ds_cols := dshape.2; ds_data := dataset |}
                {| ds_rows := tshape.1; ds_cols := tshape.2; ds_data := testset |}
                {| ids_rows := mshape.1; ids_cols := mshape.2; ids_data := matches |}
                precision c0 nn skip (ext w) with
        | (a, c1) =>
            (write_int checks 0 c1 ;;;
             call (EvTestIndexPrecision index precision nn skip) (λ _, a)) w
        end
  end.

Definition test_with_precision (index_ptr : option handle)
    (dataset : list float) (dshape : Z * Z) (testset : list float)
    (tshape : Z * Z) (matches : list Z) (mshape : Z * Z) (nn : Z)
    (precision : float) (checks : option loc) (skip : Z) : M float :=
  assert (dshape.2 =? tshape.2) ;;;
  assert (tshape.1 =? mshape.1) ;;;
  try_catch
    (test_with_precision_body index_ptr dataset dshape testset tshape
       matches mshape nn precision checks skip)
    (caught float_minus_one).

Definition test_with_checks_body (index_ptr : option handle)
    (dataset : list float) (dshape : Z * Z) (testset : list float)
    (tshape : Z * Z) (matches : list Z) (mshape : Z * Z) (nn checks : Z)
    (precision : option loc) (skip : Z) : M float :=
  match index_ptr with
  | None => throw (FLANNException "Invalid index")
  | Some index =>
      check_live index ;;;
      p0 <- read_float precision 0 ;;
      λ w,
        match test_index_checks index
                {| ds_rows := dshape.1; ds_cols := dshape.2; ds_data := dataset |}
                {| ds_rows := tshape.1; ds_cols := tshape.2; ds_data := testset |}
                {| ids_rows := mshape.1; ids_cols := mshape.2; ids_data := matches |}
                checks p0 nn skip (ext w) with
        | (a, p1) =>
            (write_float precision 0 p1 ;;;
             call (EvTestIndexChecks index checks nn skip) (λ _, a)) w
        end
  end.

Definition test_with_checks (index_ptr : option handle)
    (dataset : list float) (dshape : Z * Z) (testset : list float)
    (tshape : Z * Z) (matches : list Z) (mshape : Z * Z) (nn checks : Z)
    (precision : option loc) (skip : Z) : M float :=
  assert (dshape.2 =? tshape.2) ;;;
  assert (tshape.1 =? mshape.1) ;;;
  try_catch
    (test_with_checks_body index_ptr dataset dshape testset tshape
       matches mshape nn checks precision skip)
    (caught float_minus_one).

(** ** Reading the outcome of a call *)

(** The events of a run that came to an end. *)
Definition events_of {A : Type} (r : res A) : option (list Event) :=
  match r with
  | Ret _ _ evs => Some evs
  | Raise _ _ evs => Some evs
  | Crash => None
  end.

(** The value a call returned, if it returned. *)
Definition returned {A : Type} (r : res A) : option A :=
  match r with
  | Ret a _ _ => Some a
  | _ => None
  end.

(** The exception that left a call, if one did. *)
Definition raised {A : Type} (r : res A) : option exn :=
  match r with
  | Raise e _ _ => Some e
  | _ => None
  end.

(** The state a call ended in. *)
Definition world_of {A : Type} (r : res A) : option World :=
  match r with
  | Ret _ w _ => Some w
  | Raise _ w _ => Some w
  | Crash => None
  end.

(** The line the [catch] clause of an entry point logs for [what]. *)
Definition caught_event (what : string) : Event :=
  EvLogError ("Caught exception: %s" +:+ newline) [ArgString what].

(** A parameter pointer as [init_flann_parameters] can take it: null, or
    the address of a parameter block. *)
Definition params_ptr_ok (p : option loc) (w : World) : Prop :=
  match p with
  | None => True
  | Some l => is_Some (mem_params w !! l)
  end.

End Binding.

Arguments Ret {C A} a w evs.
Arguments Raise {C A} e w evs.
Arguments Crash {C A}.

(** ** A small library to run the binding layer against

    The examples below need the collaborators to be something.  [demo] is
    a library that knows the five algorithm names, numbers its index
    objects as it creates them, always finds the same three points, and
    whose autotuner always settles on a k-d forest of four trees. *)

Definition float_one : float := S754_finite false 8388608 (-23).

Definition known_algorithm (algo : cstr) : bool :=
  existsb (λ a, String.eqb (c_text a) (c_text algo)) algos.

(** Modelled from the spec: the index factory ([create_index] is declared
    in a header that is not part of the sources).  "Algorithm names:
    linear, kdtree, kmeans, composite, vptree.  Unknown name fails with
    unknown algorithm." *)
Definition demo_create_index (algo : cstr) (data : Dataset) (params : Params)
    (x : Z * positive) : answer (Z * positive) handle :=
  if known_algorithm algo
  then (inr x.2, (x.1, Pos.succ x.2))
  else (inl (FLANNException "Unknown algorithm"), x).

(** The k-means tree refuses a fan-out below two. *)
Definition demo_KMeansTree_new (data : Dataset) (params : Params)
    (x : Z * positive) : answer (Z * positive) handle :=
  match params !! "branching" with
  | Some (VInt b) =>
      if b <? 2
      then (inl (FLANNException "Branching factor must be at least 2"), x)
      else (inr x.2, (x.1, Pos.succ x.2))
  | _ => (inl (FLANNException "Missing parameter"), x)
  end.

(** The parameters the demo autotuner returns; its strings are its own. *)
Definition demo_tuned : Params :=
  <["algorithm" := VStr {| c_addr := 100; c_text := "kdtree" |}]>
    (<["trees" := VInt 4]> ∅).

(** A map that holds the algorithm name "kdtree" and nothing else. *)
Definition demo_algorithm_only : Params :=
  {[ "algorithm" := VStr (table_at algos 1) ]}.

(** The three points (0,0), (1,0), (0,1) with their squared distances to
    the query (0,0): what a search of radius 1 finds among them. *)
Definition demo_found : list (Z * float) :=
  [ (0, float_zero); (1, float_one); (2, float_one) ].

Definition demo_garbage : FLANNParameters :=
  {| log_level := 77; log_destination := None; random_seed := 77;
     target_precision := S754_nan; build_weight := S754_nan;
     memory_weight := S754_nan; sample_fraction := S754_nan;
     algorithm := 77; checks := 77; cb_index := S754_nan; trees := 77;
     branching := 77; iterations := 77; centers_init := 77 |}.

#[local] Instance demo : Collaborators := {|
  Ext := Z * positive;
  variant_error := FLANNException "Variant: wrong type";
  literal_pooled := false;
  stack_garbage := demo_garbage;
  seed_random := λ seed x, (seed, x.2);
  create_index := demo_create_index;
  buildIndex := λ _ x, (inr tt, x);
  veclen := λ _ _, 2;
  delete_index := λ _ x, x;
  estimateBuildIndexParams := λ _ _ _ x, (inr demo_tuned, x);
  estimateSearchParams := λ _ _ _ _ params x,
    (inr (<["checks" := VInt 32]> (<["speedup" := VFloat float_one]> params)), x);
  search_for_neighbors := λ _ _ _ _ r d x, ((inr tt, x), (r, d));
  findNeighbors := λ _ _ _ _ x, (inr demo_found, x);
  KMeansTree_new := demo_KMeansTree_new;
  getClusterCenters := λ _ clusters r x, ((inr clusters, x), r);
  test_index_precision := λ _ _ _ _ precision c _ _ x, ((inr precision, x), c);
  test_index_checks := λ _ _ _ _ _ precision _ _ x, ((inr precision, x), precision)
|}.

(** A parameter block for a k-d forest of four trees, with the given
    target precision, build weight, algorithm, fan-out and seed. *)
Definition demo_block (precision weight : float) (algo fanout seed : Z)
    : FLANNParameters :=
  {| log_level := 1; log_destination := None; random_seed := seed;
     target_precision := precision; build_weight := weight;
     memory_weight := float_zero; sample_fraction := float_one;
     algorithm := algo; checks := 32; cb_index := float_0_4; trees := 4;
     branching := fanout; iterations := 11; centers_init := 0 |}.

(** No autotuning, no seeding. *)
Definition demo_params : FLANNParameters :=
  demo_block float_minus_one float_one 1 32 0.

(** A target precision of 1, so that the autotuner runs, and the seed 42. *)
Definition demo_autotune_params : FLANNParameters :=
  demo_block float_one float_one 1 32 42.

(** A target precision of 1 and a build weight of -1. *)
Definition demo_autotune_negative : FLANNParameters :=
  demo_block float_one float_minus_one 1 32 0.

(** No autotuning and a build weight of -1. *)
Definition demo_given_negative : FLANNParameters :=
  demo_block float_minus_one float_minus_one 1 32 0.

(** A target precision that is not a number. *)
Definition demo_nan_precision : FLANNParameters :=
  demo_block S754_nan float_one 1 32 0.

(** No autotuning and an algorithm outside the table. *)
Definition demo_unknown_algorithm : FLANNParameters :=
  demo_block float_minus_one float_one 9 32 0.

(** No autotuning and a fan-out of one. *)
Definition demo_narrow : FLANNParameters :=
  demo_block float_minus_one float_one 2 1 0.

(** The points (0,0), (1,0), (0,1), row after row, and the query (0,0). *)
Definition demo_dataset : list float :=
  [ float_zero; float_zero; float_one; float_zero; float_zero; float_one ].

Definition demo_query : list float := [ float_zero; float_zero ].

(** A caller's memory: the seven blocks above at the addresses 1 to 7, an
    [int] array and a [float] array of two cells each at address 1, the
    same with three cells at address 2, and one live index, number 1. *)
Definition demo_world : World :=
  {| ext := (0, 2%positive); logger_level := 0; logger_destination := None;
     flann_distance_type := 0; flann_minkowski_order := 0;
     live := {[ 1%positive ]};
     mem_params :=
       list_to_map
         [ (1%positive, demo_params); (2%positive, demo_autotune_params);
           (3%positive, demo_autotune_negative);
           (4%positive, demo_given_negative);
           (5%positive, demo_nan_precision);
           (6%positive, demo_unknown_algorithm);
           (7%positive, demo_narrow) ];
     mem_floats := <[2%positive := [float_zero; float_zero; float_zero]]>
                     {[ 1%positive := [float_zero; float_zero] ]};
     mem_ints := <[2%positive := [0; 0; 0]]> {[ 1%positive := [0; 0] ]} |}.

(** A map as an autotuner hands it over: the names are right, and they
    are the autotuner's own strings, stored away from the two tables. *)
Definition demo_foreign : Params :=
  <["algorithm" := VStr {| c_addr := 100; c_text := "kdtree" |}]>
    (<["centers-init" := VStr {| c_addr := 200; c_text := "kmeanspp" |}]> ∅).

(** A k-d forest block whose [centers_init] is no position of the table. *)
Definition demo_odd_centers : FLANNParameters :=
  {| log_level := 1; log_destination := None; random_seed := 0;
     target_precision := float_minus_one; build_weight := float_one;
     memory_weight := float_zero; sample_fraction := float_one;
     algorithm := 1; checks := 32; cb_index := float_0_4; trees := 4;
     branching := 32; iterations := 11; centers_init := 7 |}.




(** * Properties *)

(** ** The two conversions *)

Section ConversionFacts.

Variable verr : exn.
Variable pooled : bool.

Lemma in_range_true (i n : Z) : 0 <= i < n → (0 <=? i) && (i <? n) = true.
Proof. intros [? ?]. apply andb_true_intro; split; [apply Z.leb_le | apply Z.ltb_lt]; done. Qed.

Lemma in_range_false (i n : Z) : ¬ (0 <= i < n) → (0 <=? i) && (i <? n) = false.
Proof.
  intros Hn. apply andb_false_iff.
  destruct (Z.leb_spec 0 i); [right | left; done].
  apply Z.ltb_ge. lia.
Qed.

(** What [parametersToParams] stores under each key. *)
Lemma stored_checks p :
  parametersToParams pooled p !! "checks" = Some (VInt (checks p)).
Proof. unfold parametersToParams. repeat case_match; simplify_map_eq; done. Qed.

Lemma stored_cb_index p :
  parametersToParams pooled p !! "cb_index" = Some (VFloat (cb_index p)).
Proof. unfold parametersToParams. repeat case_match; simplify_map_eq; done. Qed.

Lemma stored_trees p :
  parametersToParams pooled p !! "trees" = Some (VInt (trees p)).
Proof. unfold parametersToParams. repeat case_match; simplify_map_eq; done. Qed.

Lemma stored_iterations p :
  parametersToParams pooled p !! "max-iterations" = Some (VInt (iterations p)).
Proof. unfold parametersToParams. repeat case_match; simplify_map_eq; done. Qed.

Lemma stored_branching p :
  parametersToParams pooled p !! "branching" = Some (VInt (branching p)).
Proof. unfold parametersToParams. repeat case_match; simplify_map_eq; done. Qed.

Lemma stored_target_precision p :
  parametersToParams pooled p !! "target-precision"
  = Some (VFloat (target_precision p)).
Proof. unfold parametersToParams. repeat case_match; simplify_map_eq; done. Qed.

Lemma stored_centers_init p :
  parametersToParams pooled p !! "centers-init"
  = Some (VStr (if (0 <=? centers_init p)
                   && (centers_init p <? ARRAY_LEN centers_algos)
                then table_at centers_algos (centers_init p)
                else literal_random pooled)).
Proof. unfold parametersToParams. repeat case_match; simplify_map_eq; done. Qed.

Lemma stored_algorithm p :
  parametersToParams pooled p !! "algorithm"
  = if (0 <=? algorithm p) && (algorithm p <? ARRAY_LEN algos)
    then Some (VStr (table_at algos (algorithm p)))
    else None.
Proof. unfold parametersToParams. repeat case_match; simplify_map_eq; done. Qed.

(** The search loops find the table entry whose address is stored. *)
Lemma centers_init_loop_table (params : Params) (i acc : Z) :
  0 <= i < ARRAY_LEN centers_algos →
  params !! "centers-init" = Some (VStr (table_at centers_algos i)) →
  centers_init_loop verr centers_algos 0 params acc = i.
Proof.
  intros Hi Hs. unfold ARRAY_LEN in Hi; simpl in Hi.
  unfold centers_algos at 1; simpl. unfold params_at. rewrite Hs. simpl.
  assert (i = 0 ∨ i = 1 ∨ i = 2) as Hcases by lia.
  destruct Hcases as [-> | [-> | ->]]; reflexivity.
Qed.

Lemma algorithm_loop_table (params : Params) (i acc : Z) :
  0 <= i < ARRAY_LEN algos →
  params !! "algorithm" = Some (VStr (table_at algos i)) →
  algorithm_loop verr algos 0 params acc = inr i.
Proof.
  intros Hi Hs. unfold ARRAY_LEN in Hi; simpl in Hi.
  unfold algos at 1; simpl. unfold params_at. rewrite Hs. simpl.
  assert (i = 0 ∨ i = 1 ∨ i = 2 ∨ i = 3 ∨ i = 4) as Hcases by lia.
  destruct Hcases as [-> | [-> | [-> | [-> | ->]]]]; reflexivity.
Qed.

(** The unguarded loop returns as soon as a string is stored. *)
Lemma algorithm_loop_total (params : Params) (s : cstr) (tbl : list cstr)
    (i acc : Z) :
  params !! "algorithm" = Some (VStr s) →
  ∃ a, algorithm_loop verr tbl i params acc = inr a.
Proof.
  intros Hs. revert i. induction tbl as [| algo rest IH]; intros i; simpl.
  - eauto.
  - unfold params_at. rewrite Hs. simpl.
    destruct (ptr_eqb algo s); [eauto | apply IH].
Qed.

(** With nothing stored the first loop keeps the value set before it. *)
Lemma centers_init_loop_missing (params : Params) (tbl : list cstr)
    (i acc : Z) :
  params !! "centers-init" = None →
  centers_init_loop verr tbl i params acc = acc.
Proof.
  intros Hs. revert i. induction tbl as [| algo rest IH]; intros i; simpl.
  - reflexivity.
  - unfold params_at at 1. rewrite Hs. simpl. apply IH.
Qed.

Lemma int_or_missing (dflt : Z) (params : Params) (key : string) :
  params !! key = None → int_or verr dflt params key = dflt.
Proof. intros H. unfold int_or, params_at. rewrite H. reflexivity. Qed.

Lemma float_or_missing (dflt : float) (params : Params) (key : string) :
  params !! key = None → float_or verr dflt params key = dflt.
Proof. intros H. unfold float_or, params_at. rewrite H. reflexivity. Qed.

Lemma int_or_stored (dflt v : Z) (params : Params) (key : string) :
  params !! key = Some (VInt v) → int_or verr dflt params key = v.
Proof. intros H. unfold int_or, params_at. rewrite H. reflexivity. Qed.

Lemma float_or_stored (dflt v : float) (params : Params) (key : string) :
  params !! key = Some (VFloat v) → float_or verr dflt params key = v.
Proof. intros H. unfold float_or, params_at. rewrite H. reflexivity. Qed.

End ConversionFacts.

(** C3.  A parameter block whose [algorithm] and [centers_init] are valid
    positions of the two name tables survives the way through
    [parametersToParams] and back through [paramsToParameters]: the second
    conversion returns a block with the same checks, cb_index, trees,
    iterations, branching, target_precision, centers_init and algorithm. *)
Theorem params_round_trip (verr : exn) (pooled : bool)
    (p0 p : FLANNParameters) :
  0 <= algorithm p < ARRAY_LEN algos →
  0 <= centers_init p < ARRAY_LEN centers_algos →
  ∃ q, paramsToParameters verr p0 (parametersToParams pooled p) = inr q
       ∧ checks q = checks p
       ∧ cb_index q = cb_index p
       ∧ trees q = trees p
       ∧ iterations q = iterations p
       ∧ branching q = branching p
       ∧ target_precision q = target_precision p
       ∧ centers_init q = centers_init p
       ∧ algorithm q = algorithm p.
Proof.
  intros Ha Hc.
  pose proof (stored_algorithm pooled p) as Halg.
  pose proof (stored_centers_init pooled p) as Hcen.
  rewrite (in_range_true _ _ Ha) in Halg.
  rewrite (in_range_true _ _ Hc) in Hcen.
  unfold paramsToParameters; cbv zeta.
  rewrite (algorithm_loop_table verr _ _ LINEAR Ha Halg).
  rewrite (int_or_stored verr _ _ _ _ (stored_checks pooled p)).
  rewrite (float_or_stored verr _ _ _ _ (stored_cb_index pooled p)).
  rewrite (int_or_stored verr _ _ _ _ (stored_trees pooled p)).
  rewrite (int_or_stored verr _ _ _ _ (stored_iterations pooled p)).
  rewrite (int_or_stored verr _ _ _ _ (stored_branching pooled p)).
  rewrite (float_or_stored verr _ _ _ _ (stored_target_precision pooled p)).
  rewrite (centers_init_loop_table verr _ _ CENTERS_RANDOM Hc Hcen).
  eexists; split; [reflexivity |]; simpl.
  repeat split.
Qed.

(** The round trip at [demo_params] (a k-d forest, random centers). *)
Lemma params_round_trip_witness :
  ∃ q, paramsToParameters OtherException demo_garbage
         (parametersToParams false demo_params) = inr q
       ∧ checks q = 32
       ∧ cb_index q = float_0_4
       ∧ trees q = 4
       ∧ iterations q = 11
       ∧ branching q = 32
       ∧ target_precision q = float_minus_one
       ∧ centers_init q = 0
       ∧ algorithm q = 1.
Proof.
  apply (params_round_trip OtherException false demo_garbage demo_params);
    unfold ARRAY_LEN; simpl; lia.
Defined.

(** C4, as the specification words it, does not hold: with "checks"
    missing the block gets checks -1, not 32 (and likewise trees -1, not 4,
    and iterations -1, not 11).  The map here holds nothing but the algorithm
    name. *)
Lemma missing_checks_is_not_32 :
  demo_algorithm_only !! "checks" = None
  ∧ demo_algorithm_only !! "trees" = None
  ∧ demo_algorithm_only !! "max-iterations" = None
  ∧ ∃ q, paramsToParameters OtherException demo_garbage demo_algorithm_only
         = inr q
         ∧ checks q = -1 ∧ checks q ≠ 32
         ∧ trees q = -1 ∧ trees q ≠ 4
         ∧ iterations q = -1 ∧ iterations q ≠ 11.
Proof.
  split_and!; try reflexivity.
  eexists. split; [vm_compute; reflexivity |].
  cbn. split_and!; (reflexivity || discriminate).
Qed.

(** C4, amended.  When the map holds a string under "algorithm" (the one
    key read outside a [try]) [paramsToParameters] returns a block, and in
    it every key that is missing from the map shows as: checks -1,
    cb_index 0.4, trees -1, iterations -1, branching -1, target_precision
    -1, centers_init random. *)
Theorem missing_keys_defaults (verr : exn) (p0 : FLANNParameters)
    (params : Params) (name : cstr) :
  params !! "algorithm" = Some (VStr name) →
  ∃ q, paramsToParameters verr p0 params = inr q
       ∧ (params !! "checks" = None → checks q = -1)
       ∧ (params !! "cb_index" = None → cb_index q = float_0_4)
       ∧ (params !! "trees" = None → trees q = -1)
       ∧ (params !! "max-iterations" = None → iterations q = -1)
       ∧ (params !! "branching" = None → branching q = -1)
       ∧ (params !! "target-precision" = None →
          target_precision q = float_minus_one)
       ∧ (params !! "centers-init" = None → centers_init q = CENTERS_RANDOM).
Proof.
  intros Hname.
  destruct (algorithm_loop_total verr params name algos 0 LINEAR Hname)
    as [a Ha].
  unfold paramsToParameters. rewrite Ha.
  eexists; split; [reflexivity |].
  cbn [checks cb_index trees iterations branching target_precision
       centers_init].
  repeat split; intros Hmiss.
  - by apply int_or_missing.
  - by apply float_or_missing.
  - by apply int_or_missing.
  - by apply int_or_missing.
  - by apply int_or_missing.
  - by apply float_or_missing.
  - by apply centers_init_loop_missing.
Qed.

(** The defaults on the map that holds the algorithm name only. *)
Lemma missing_keys_defaults_witness :
  ∃ q, paramsToParameters OtherException demo_garbage demo_algorithm_only
       = inr q
       ∧ checks q = -1
       ∧ cb_index q = float_0_4
       ∧ trees q = -1
       ∧ iterations q = -1
       ∧ branching q = -1
       ∧ target_precision q = float_minus_one
       ∧ centers_init q = CENTERS_RANDOM.
Proof.
  destruct (missing_keys_defaults OtherException demo_garbage
              demo_algorithm_only (table_at algos 1))
    as (q & Hq & H1 & H2 & H3 & H4 & H5 & H6 & H7).
  - reflexivity.
  - exists q.
    split_and!; [exact Hq | apply H1 | apply H2 | apply H3
                | apply H4 | apply H5 | apply H6 | apply H7];
      reflexivity.
Defined.

(** C10.  When [centers_init] is no position of the three-entry table,
    [parametersToParams] stores the string "random" under "centers-init";
    when [algorithm] is no position of the five-entry table, the map it
    returns has no "algorithm" key. *)
Theorem out_of_range_names (pooled : bool) (p : FLANNParameters) :
  (¬ (0 <= centers_init p < ARRAY_LEN centers_algos) →
   parametersToParams pooled p !! "centers-init"
   = Some (VStr (literal_random pooled))
   ∧ c_text (literal_random pooled) = "random")
  ∧ (¬ (0 <= algorithm p < ARRAY_LEN algos) →
     parametersToParams pooled p !! "algorithm" = None).
Proof.
  split.
  - intros Hc. split.
    + rewrite stored_centers_init, (in_range_false _ _ Hc). reflexivity.
    + destruct pooled; reflexivity.
  - intros Ha.
    rewrite stored_algorithm, (in_range_false _ _ Ha). reflexivity.
Qed.

(** [demo_garbage] has 77 in both fields. *)
Lemma out_of_range_names_witness :
  (parametersToParams false demo_garbage !! "centers-init"
   = Some (VStr {| c_addr := 8; c_text := "random" |}))
  ∧ parametersToParams false demo_garbage !! "algorithm" = None.
Proof.
  destruct (out_of_range_names false demo_garbage) as [Hc Ha].
  split.
  - apply Hc. vm_compute. intros [_ H]. discriminate H.
  - apply Ha. vm_compute. intros [_ H]. discriminate H.
Defined.

(** ** The entry points *)

Section BindingFacts.

Context `{C : Collaborators}.

(** Symbolic execution: reduce the glue and leave the calls standing. *)
Ltac run :=
  cbn -[init_flann_parameters build_as_given build_autotuned
        store_params assign_field write_float write_int
        paramsToParameters parametersToParams copy_neighbors
        do_search_for_neighbors do_getClusterCenters] in *.

Lemma autotuner_invoked_app (a b : list Event) :
  autotuner_invoked (a ++ b) = autotuner_invoked a || autotuner_invoked b.
Proof. apply existsb_app. Qed.

(** *** init_flann_parameters *)

Lemma init_run (l : loc) (fp : FLANNParameters) (w : World) :
  mem_params w !! l = Some fp →
  ∃ w1 e1,
    init_flann_parameters (Some l) w = Ret tt w1 e1
    ∧ mem_params w1 = mem_params w
    ∧ mem_floats w1 = mem_floats w
    ∧ mem_ints w1 = mem_ints w
    ∧ live w1 = live w
    ∧ ext w1 = (if 0 <? random_seed fp
                then seed_random (random_seed fp) (ext w) else ext w)
    ∧ e1 = (if 0 <? random_seed fp
            then [EvSeedRandom (random_seed fp)] else []).
Proof.
  intros H. unfold init_flann_parameters, bind, load_params. rewrite H.
  unfold flann_log_verbosity, flann_log_destination.
  destruct (0 <=? log_level fp); destruct (0 <? random_seed fp); simpl;
    eexists _, _; repeat split.
Qed.

Lemma init_ok (p : option loc) (w : World) :
  params_ptr_ok p w →
  ∃ w1 e1,
    init_flann_parameters p w = Ret tt w1 e1
    ∧ mem_params w1 = mem_params w
    ∧ live w1 = live w
    ∧ mem_ints w1 = mem_ints w.
Proof.
  destruct p as [l |]; simpl.
  - intros [fp Hfp].
    destruct (init_run l fp w Hfp) as (w1 & e1 & Hi & Hm & _ & Hn & Hl & _).
    exists w1, e1. repeat split; done.
  - intros _. exists w, []. repeat split.
Qed.

(** C8.  Given a parameter block, [init_flann_parameters] seeds the global
    generator exactly when [random_seed] is strictly positive: then
    [seed_random] is called once with that seed; when [random_seed] is zero
    or negative no call is made and the state of the library, the
    generator's included, is the one before the call. *)
Theorem init_seeds_iff_positive (l : loc) (fp : FLANNParameters) (w : World) :
  mem_params w !! l = Some fp →
  ∃ w1 e1,
    init_flann_parameters (Some l) w = Ret tt w1 e1
    ∧ (reseeded e1 = true ↔ 0 < random_seed fp)
    ∧ (0 < random_seed fp →
       e1 = [EvSeedRandom (random_seed fp)]
       ∧ ext w1 = seed_random (random_seed fp) (ext w))
    ∧ (random_seed fp <= 0 → e1 = [] ∧ ext w1 = ext w).
Proof.
  intros H.
  destruct (init_run l fp w H) as (w1 & e1 & Hi & _ & _ & _ & _ & Hx & He).
  exists w1, e1. split; [exact Hi |].
  destruct (0 <? random_seed fp) eqn:Hseed; subst e1.
  - apply Z.ltb_lt in Hseed. split; [| split].
    + split; [intros _; exact Hseed | reflexivity].
    + intros _. split; [reflexivity | exact Hx].
    + intros Hle. lia.
  - apply Z.ltb_ge in Hseed. split; [| split].
    + split; [discriminate | intros Hpos; lia].
    + intros Hpos. lia.
    + intros _. split; [reflexivity | exact Hx].
Qed.

(** *** The catch clause *)

Lemma try_catch_caught {A : Type} (body : M A) (sentinel : A) (w w1 : World)
    (what : string) (e1 : list Event) :
  body w = Raise (RuntimeError what) w1 e1 →
  try_catch body (caught sentinel) w
  = Ret sentinel w1 (e1 ++ [caught_event what]).
Proof. intros H. unfold try_catch. rewrite H. reflexivity. Qed.

Lemma try_catch_ret {A : Type} (body : M A) (sentinel a : A) (w w1 : World)
    (e1 : list Event) :
  body w = Ret a w1 e1 →
  try_catch body (caught sentinel) w = Ret a w1 e1.
Proof. intros H. unfold try_catch. rewrite H. reflexivity. Qed.

(** What a [catch] clause returns is the body's value or the sentinel. *)
Lemma try_catch_ret_inv {A : Type} (body : M A) (sentinel a : A)
    (w w1 : World) (evs : list Event) :
  try_catch body (caught sentinel) w = Ret a w1 evs →
  body w = Ret a w1 evs
  ∨ ∃ (what : string) (e1 : list Event),
      body w = Raise (RuntimeError what) w1 e1
               ∧ a = sentinel ∧ evs = (e1 ++ [caught_event what])%list.
Proof.
  unfold try_catch. destruct (body w) as [b w2 e2 | [what |] w2 e2 |]; try done.
  - intros H; left; exact H.
  - cbn. intros H; injection H as <- <- <-. right. eauto.
Qed.

(** C7.  [flann_build_index] with a null parameter pointer returns the
    null handle (after logging the error).  And whenever the body of an
    entry point is left by a [runtime_error], the entry point logs
    "Caught exception: " with the error's text and returns its sentinel:
    the null handle for [flann_build_index], -1 for the five entry points
    that return an [int], -1.0f for the two that return a [float]. *)
Theorem entry_points_catch :
  (∀ dataset rows cols speedup w,
     flann_build_index dataset rows cols speedup None w
     = Ret None w [caught_event "The index_params agument must be non-null"])
  ∧ (∀ dataset rows cols speedup flann_params w what w1 e1,
       flann_build_index_body dataset rows cols speedup flann_params w
       = Raise (RuntimeError what) w1 e1 →
       flann_build_index dataset rows cols speedup flann_params w
       = Ret None w1 (e1 ++ [caught_event what]))
  ∧ (∀ dataset rows cols testset tcount result dists nn flann_params
       w what w1 e1,
       flann_find_nearest_neighbors_body dataset rows cols testset tcount
         result dists nn flann_params w
       = Raise (RuntimeError what) w1 e1 →
       flann_find_nearest_neighbors dataset rows cols testset tcount
         result dists nn flann_params w
       = Ret (-1) w1 (e1 ++ [caught_event what]))
  ∧ (∀ index_ptr testset tcount result dists nn checks flann_params
       w what w1 e1,
       flann_find_nearest_neighbors_index_body index_ptr testset tcount
         result dists nn checks flann_params w
       = Raise (RuntimeError what) w1 e1 →
       flann_find_nearest_neighbors_index index_ptr testset tcount
         result dists nn checks flann_params w
       = Ret (-1) w1 (e1 ++ [caught_event what]))
  ∧ (∀ index_ptr query indices dists max_nn radius checks flann_params
       w what w1 e1,
       flann_radius_search_body index_ptr query indices dists max_nn radius
         checks flann_params w
       = Raise (RuntimeError what) w1 e1 →
       flann_radius_search index_ptr query indices dists max_nn radius
         checks flann_params w
       = Ret (-1) w1 (e1 ++ [caught_event what]))
  ∧ (∀ index_ptr flann_params w what w1 e1,
       flann_free_index_body index_ptr flann_params w
       = Raise (RuntimeError what) w1 e1 →
       flann_free_index index_ptr flann_params w
       = Ret (-1) w1 (e1 ++ [caught_event what]))
  ∧ (∀ dataset rows cols clusters result flann_params w what w1 e1,
       flann_compute_cluster_centers_body dataset rows cols clusters result
         flann_params w
       = Raise (RuntimeError what) w1 e1 →
       flann_compute_cluster_centers dataset rows cols clusters result
         flann_params w
       = Ret (-1) w1 (e1 ++ [caught_event what]))
  ∧ (∀ index_ptr dataset dshape testset tshape matches mshape nn precision
       checks skip w what w1 e1,
       dshape.2 = tshape.2 → tshape.1 = mshape.1 →
       test_with_precision_body index_ptr dataset dshape testset tshape
         matches mshape nn precision checks skip w
       = Raise (RuntimeError what) w1 e1 →
       test_with_precision index_ptr dataset dshape testset tshape
         matches mshape nn precision checks skip w
       = Ret float_minus_one w1 (e1 ++ [caught_event what]))
  ∧ (∀ index_ptr dataset dshape testset tshape matches mshape nn checks
       precision skip w what w1 e1,
       dshape.2 = tshape.2 → tshape.1 = mshape.1 →
       test_with_checks_body index_ptr dataset dshape testset tshape
         matches mshape nn checks precision skip w
       = Raise (RuntimeError what) w1 e1 →
       test_with_checks index_ptr dataset dshape testset tshape
         matches mshape nn checks precision skip w
       = Ret float_minus_one w1 (e1 ++ [caught_event what])).
Proof.
  split; [reflexivity |].
  repeat split; intros.
  1-6: by apply try_catch_caught.
  - unfold test_with_precision, bind, assert.
    rewrite (proj2 (Z.eqb_eq _ _)), (proj2 (Z.eqb_eq _ _)) by done. cbn.
    erewrite try_catch_caught by eassumption. reflexivity.
  - unfold test_with_checks, bind, assert.
    rewrite (proj2 (Z.eqb_eq _ _)), (proj2 (Z.eqb_eq _ _)) by done. cbn.
    erewrite try_catch_caught by eassumption. reflexivity.
Qed.

(** *** A null or a live index *)

(** C6.  With a null index handle, and a parameter pointer that is null
    or points to a parameter block, [flann_find_nearest_neighbors_index],
    [flann_radius_search] and [flann_free_index] each log the
    "Invalid index" failure and return -1, having done nothing but
    [init_flann_parameters]; and [flann_free_index] on a live handle
    deletes the index and returns 0. *)
Theorem null_index_rejected (flann_params : option loc) (w : World) :
  params_ptr_ok flann_params w →
  ∃ w1 e1,
    init_flann_parameters flann_params w = Ret tt w1 e1
    ∧ (∀ testset tcount result dists nn checks,
         flann_find_nearest_neighbors_index None testset tcount result dists
           nn checks flann_params w
         = Ret (-1) w1 (e1 ++ [caught_event "Invalid index"]))
    ∧ (∀ query indices dists max_nn radius checks,
         flann_radius_search None query indices dists max_nn radius checks
           flann_params w
         = Ret (-1) w1 (e1 ++ [caught_event "Invalid index"]))
    ∧ flann_free_index None flann_params w
      = Ret (-1) w1 (e1 ++ [caught_event "Invalid index"])
    ∧ (∀ index, index ∈ live w →
         ∃ w2,
           flann_free_index (Some index) flann_params w
           = Ret 0 w2 (e1 ++ [EvDelete index])
           ∧ index ∉ live w2).
Proof.
  intros Hok.
  destruct (init_ok flann_params w Hok) as (w1 & e1 & Hi & _ & Hl & _).
  exists w1, e1. split; [exact Hi |].
  repeat split; intros.
  - apply try_catch_caught.
    unfold flann_find_nearest_neighbors_index_body, bind. rewrite Hi.
    cbn. by rewrite app_nil_r.
  - apply try_catch_caught.
    unfold flann_radius_search_body, bind. rewrite Hi.
    cbn. by rewrite app_nil_r.
  - apply try_catch_caught.
    unfold flann_free_index_body, bind. rewrite Hi.
    cbn. by rewrite app_nil_r.
  - eexists. split.
    + apply try_catch_ret.
      unfold flann_free_index_body, bind, check_live. rewrite Hi, Hl.
      rewrite bool_decide_eq_true_2 by done. cbn. reflexivity.
    + cbn. apply not_elem_of_difference. right. by apply elem_of_singleton.
Qed.

(** *** flann_build_index *)

Lemma build_as_given_events (fp : FLANNParameters) (data : Dataset)
    (w : World) (evs : list Event) :
  events_of (build_as_given fp data w) = Some evs →
  autotuner_invoked evs = false.
Proof.
  unfold build_as_given, algorithm_name, do_create_index, do_buildIndex,
    logger_info, lift, call, bind, emit, throw, ret.
  repeat (case_match; simplify_eq); cbn; intros [= <-]; reflexivity.
Qed.

Lemma build_autotuned_events (fp : FLANNParameters) (data : Dataset)
    (precision : float) (w : World) :
  ∃ evs, events_of (build_autotuned fp data precision w) = Some evs
         ∧ autotuner_invoked evs = true.
Proof.
  unfold build_autotuned, algorithm_name, do_create_index, do_buildIndex,
    lift, call, bind, emit, throw, ret.
  repeat (case_match; simplify_eq); cbn;
    eexists; (split; [reflexivity |]); reflexivity.
Qed.

(** C2, amended.  For a call of [flann_build_index] with a parameter
    block, the autotuner is invoked exactly when [target_precision] is not
    below zero and neither [build_weight] nor [memory_weight] is below
    zero; and when [target_precision] is below zero the call is
    [init_flann_parameters] followed by the creation and the build of the
    index described by the caller's block, with no autotuning. *)
Theorem autotuner_invoked_iff (l : loc) (fp : FLANNParameters)
    (dataset : list float) (rows cols : Z) (speedup : option loc)
    (w : World) :
  mem_params w !! l = Some fp →
  (∀ evs,
     events_of (flann_build_index dataset rows cols speedup (Some l) w)
     = Some evs →
     (autotuner_invoked evs = true
      ↔ float_lt0 (target_precision fp) = false
        ∧ float_lt0 (build_weight fp) = false
        ∧ float_lt0 (memory_weight fp) = false))
  ∧ (float_lt0 (target_precision fp) = true →
     flann_build_index dataset rows cols speedup (Some l) w
     = try_catch
         (bind (init_flann_parameters (Some l))
            (λ _, bind (build_as_given fp
                          {| ds_rows := rows; ds_cols := cols;
                             ds_data := dataset |})
                    (λ index, ret (Some index))))
         (caught None) w).
Proof.
  intros Hfp.
  destruct (init_run l fp w Hfp) as (w1 & e1 & Hi & Hm & _ & _ & _ & _ & He).
  assert (autotuner_invoked e1 = false) as He1.
  { subst e1. destruct (0 <? random_seed fp); reflexivity. }
  clear He.
  split.
  - intros evs Hev.
    unfold flann_build_index, try_catch, flann_build_index_body, bind in Hev.
    run. rewrite Hi in Hev. unfold load_params in Hev.
    rewrite Hm, Hfp in Hev. run.
    destruct (float_lt0 (target_precision fp)) eqn:Htp.
    + pose proof (build_as_given_events fp
          {| ds_rows := rows; ds_cols := cols; ds_data := dataset |} w1) as Hq.
      destruct (build_as_given _ _ w1) as [a w2 e2 | [what |] w2 e2 |];
        cbn in Hev, Hq; simplify_eq;
        specialize (Hq _ eq_refl);
        rewrite ?autotuner_invoked_app, ?He1, ?Hq; cbn;
        (split; [discriminate | intros [? _]; discriminate]).
    + destruct (float_lt0 (build_weight fp)) eqn:Hbw.
      { cbn in Hev. simplify_eq.
        rewrite ?autotuner_invoked_app, ?He1; cbn.
        split; [discriminate | intros (_ & ? & _); discriminate]. }
      destruct (float_lt0 (memory_weight fp)) eqn:Hmw.
      { cbn in Hev. simplify_eq.
        rewrite ?autotuner_invoked_app, ?He1; cbn.
        split; [discriminate | intros (_ & _ & ?); discriminate]. }
      split; [done | intros _].
      destruct (build_autotuned_events fp
          {| ds_rows := rows; ds_cols := cols; ds_data := dataset |}
          (target_precision fp) w1) as (ea & Hea & Hinv).
      run.
      destruct (build_autotuned _ _ _ w1) as [[index params] w2 e2 | x w2 e2 |];
        cbn in Hea; simplify_eq.
      * repeat (case_match; simplify_eq);
          cbn in Hev; simplify_eq;
          rewrite ?autotuner_invoked_app, ?Hinv, ?orb_true_r; reflexivity.
      * destruct x; cbn in Hev; simplify_eq;
          rewrite ?autotuner_invoked_app, ?Hinv, ?orb_true_r; reflexivity.
  - intros Htp.
    unfold flann_build_index, try_catch, flann_build_index_body, bind.
    run. rewrite Hi. unfold load_params. rewrite Hm, Hfp. run. rewrite Htp.
    destruct (build_as_given _ _ w1) as [a w2 e2 | [what |] w2 e2 |];
      reflexivity.
Qed.

(** C5, amended.  When [target_precision] is not below zero, so that the
    autotuner is asked for, and [build_weight] or [memory_weight] is
    below zero, [flann_build_index] does nothing past
    [init_flann_parameters]: it logs the invalid-argument error that names
    the offending weight and returns the null handle. *)
Theorem negative_weight_rejected (l : loc) (fp : FLANNParameters)
    (dataset : list float) (rows cols : Z) (speedup : option loc)
    (w : World) :
  mem_params w !! l = Some fp →
  float_lt0 (target_precision fp) = false →
  float_lt0 (build_weight fp) = true ∨ float_lt0 (memory_weight fp) = true →
  ∃ w1 e1,
    init_flann_parameters (Some l) w = Ret tt w1 e1
    ∧ flann_build_index dataset rows cols speedup (Some l) w
      = Ret None w1
          (e1 ++ [caught_event
                    (if float_lt0 (build_weight fp)
                     then "The index_params.build_weight must be positive."
                     else "The index_params.memory_weight must be positive.")]).
Proof.
  intros Hfp Htp Hneg.
  destruct (init_run l fp w Hfp) as (w1 & e1 & Hi & Hm & _).
  exists w1, e1. split; [exact Hi |].
  unfold flann_build_index, try_catch, flann_build_index_body, bind.
  run. rewrite Hi. unfold load_params. rewrite Hm, Hfp. run. rewrite Htp.
  destruct (float_lt0 (build_weight fp)) eqn:Hbw.
  - cbn. by rewrite app_nil_r.
  - destruct Hneg as [? | Hmw]; [done |]. rewrite Hmw. cbn.
    by rewrite app_nil_r.
Qed.

(** What the stores of lines 192-199 do to the parameter block. *)
Lemma store_params_at (l : loc) (v : FLANNParameters) (w w' : World)
    (e : list Event) :
  store_params (Some l) v w = Ret tt w' e → mem_params w' !! l = Some v.
Proof.
  unfold store_params. destruct (mem_params w !! l); [| done].
  intros [= <- _]. cbn. apply lookup_insert_eq.
Qed.

Lemma assign_field_at (l : loc) (set : FLANNParameters → FLANNParameters)
    (v : FLANNParameters) (w w' : World) (e : list Event) :
  assign_field (Some l) set w = Ret tt w' e →
  mem_params w !! l = Some v →
  mem_params w' !! l = Some (set v).
Proof.
  unfold assign_field, bind, load_params, store_params.
  intros H Hv. rewrite Hv in H. cbn in H. rewrite Hv in H.
  injection H as <- _. cbn. apply lookup_insert_eq.
Qed.

Lemma write_float_params (p : option loc) (i : Z) (v : float) (w w' : World)
    (e : list Event) :
  write_float p i v w = Ret tt w' e → mem_params w' = mem_params w.
Proof.
  unfold write_float, bind, load_floats, store_floats, crash.
  destruct p as [s |]; [| done].
  destruct (mem_floats w !! s) as [a |] eqn:Ha; [| done].
  destruct ((0 <=? i) && (i <? Z.of_nat (length a))); [| done].
  rewrite Ha. intros [= <- _]. reflexivity.
Qed.

(** C9.  When [flann_build_index] takes the autotuning path
    ([target_precision] not below zero) and succeeds, that is, returns an
    index, the caller's parameter block has been overwritten and holds in
    [target_precision], [build_weight], [memory_weight] and
    [sample_fraction] the values the caller passed in. *)
Theorem autotuned_build_restores (l : loc) (fp : FLANNParameters)
    (dataset : list float) (rows cols : Z) (speedup : option loc)
    (w w' : World) (index : handle) (evs : list Event) :
  mem_params w !! l = Some fp →
  float_lt0 (target_precision fp) = false →
  flann_build_index dataset rows cols speedup (Some l) w
  = Ret (Some index) w' evs →
  ∃ fp',
    mem_params w' !! l = Some fp'
    ∧ target_precision fp' = target_precision fp
    ∧ build_weight fp' = build_weight fp
    ∧ memory_weight fp' = memory_weight fp
    ∧ sample_fraction fp' = sample_fraction fp.
Proof.
  intros Hfp Htp Hcall.
  apply try_catch_ret_inv in Hcall as [Hbody | (? & ? & _ & ? & _)]; [| done].
  destruct (init_run l fp w Hfp) as (w1 & e1 & Hi & Hm & _).
  unfold flann_build_index_body, bind in Hbody.
  run. rewrite Hi in Hbody. unfold load_params in Hbody.
  rewrite Hm, Hfp in Hbody. run. rewrite Htp in Hbody.
  repeat (case_match; simplify_eq).
  all: unfold lift, throw in *; repeat (case_match; simplify_eq).
  all: unfold ret in *; simplify_eq.
  all: repeat match goal with a : unit |- _ => destruct a end.
  all: repeat match goal with
         | H : store_params (Some _) _ _ = Ret _ _ _ |- _ =>
             apply store_params_at in H
         | H : assign_field (Some ?a) _ ?w0 = Ret _ _ _,
           H0 : mem_params ?w0 !! ?a = Some _ |- _ =>
             apply (assign_field_at _ _ _ _ _ _ H) in H0; clear H
         | H : write_float _ _ _ _ = Ret _ _ _ |- _ =>
             apply write_float_params in H
         end.
  all: try match goal with
         | H : mem_params ?a = mem_params _ |- context [mem_params ?a] =>
             rewrite H
         end.
  all: eexists; split; [eassumption | repeat split].
Qed.

(** *** flann_radius_search *)






End BindingFacts.

(** ** The entry points on the demo library *)

(** C8 on the block with seed 42 and on the block with seed 0. *)
Lemma init_seeds_iff_positive_witness :
  (∃ w1 e1,
     init_flann_parameters (Some 2%positive) demo_world = Ret tt w1 e1
     ∧ e1 = [EvSeedRandom 42] ∧ ext w1 = (42, 2%positive))
  ∧ (∃ w1 e1,
       init_flann_parameters (Some 1%positive) demo_world = Ret tt w1 e1
       ∧ e1 = [] ∧ ext w1 = (0, 2%positive)).
Proof.
  split.
  - destruct (init_seeds_iff_positive 2%positive demo_autotune_params
                demo_world eq_refl) as (w1 & e1 & Hi & _ & Hpos & _).
    exists w1, e1. split; [exact Hi |]. apply Hpos. reflexivity.
  - destruct (init_seeds_iff_positive 1%positive demo_params
                demo_world eq_refl) as (w1 & e1 & Hi & _ & _ & Hneg).
    exists w1, e1. split; [exact Hi |]. apply Hneg. discriminate.
Defined.

(** C6 on the demo memory: a null handle, and the live index 1. *)
Lemma null_index_rejected_witness :
  ∃ w1 e1,
    flann_radius_search None demo_query (Some 1%positive) (Some 1%positive)
      2 float_one 32 (Some 1%positive) demo_world
    = Ret (-1) w1 (e1 ++ [caught_event "Invalid index"])
    ∧ ∃ w2,
        flann_free_index (Some 1%positive) (Some 1%positive) demo_world
        = Ret 0 w2 (e1 ++ [EvDelete 1%positive])
        ∧ 1%positive ∉ live w2.
Proof.
  destruct (null_index_rejected (Some 1%positive) demo_world)
    as (w1 & e1 & _ & _ & Hradius & _ & Hfree).
  - exists demo_params. reflexivity.
  - exists w1, e1. split; [apply Hradius |].
    apply Hfree. apply elem_of_singleton. reflexivity.
Defined.


(** Run a body on the demo library, see it raise, and let the entry point
    catch. *)
Ltac caught_on Hentry body what :=
  let Hr := fresh "Hr" in
  let Hb := fresh "Hb" in
  assert (raised body = Some (RuntimeError what)) as Hr
    by (vm_compute; reflexivity);
  destruct body as [? ? ? | ? ? ? |] eqn:Hb; try discriminate Hr;
  cbn in Hr; injection Hr as ->;
  erewrite Hentry by first [exact Hb | reflexivity];
  reflexivity.

(** C7 on the demo library: each body is left by a [runtime_error] (a null
    parameter pointer, an algorithm outside the table, a null index, a
    fan-out of one) and each entry point returns its sentinel. *)
Lemma entry_points_catch_witness :
  returned (flann_build_index demo_dataset 3 2 None None demo_world)
  = Some None
  ∧ returned (flann_find_nearest_neighbors demo_dataset 3 2 demo_query 1
                (Some 1%positive) (Some 1%positive) 2 (Some 6%positive)
                demo_world)
    = Some (-1)
  ∧ returned (flann_find_nearest_neighbors_index None demo_query 1
                (Some 1%positive) (Some 1%positive) 2 32 None demo_world)
    = Some (-1)
  ∧ returned (flann_radius_search None demo_query (Some 1%positive)
                (Some 1%positive) 2 float_one 32 None demo_world)
    = Some (-1)
  ∧ returned (flann_free_index None None demo_world) = Some (-1)
  ∧ returned (flann_compute_cluster_centers demo_dataset 3 2 2
                (Some 2%positive) (Some 7%positive) demo_world)
    = Some (-1)
  ∧ returned (test_with_precision None demo_dataset (3, 2) demo_query (1, 2)
                [0] (1, 1) 1 float_one (Some 1%positive) 0 demo_world)
    = Some float_minus_one
  ∧ returned (test_with_checks None demo_dataset (3, 2) demo_query (1, 2)
                [0] (1, 1) 1 32 (Some 1%positive) 0 demo_world)
    = Some float_minus_one.
Proof.
  destruct (entry_points_catch (C := demo))
    as (Hnull & Hbuild & Hnn & Hnni & Hradius & Hfree & Hcenters & Hprec
        & Hchk).
  split_and!.
  - rewrite Hnull. reflexivity.
  - caught_on Hnn
      (flann_find_nearest_neighbors_body demo_dataset 3 2 demo_query 1
         (Some 1%positive) (Some 1%positive) 2 (Some 6%positive) demo_world)
      "Variant: wrong type".
  - caught_on Hnni
      (flann_find_nearest_neighbors_index_body None demo_query 1
         (Some 1%positive) (Some 1%positive) 2 32 None demo_world)
      "Invalid index".
  - caught_on Hradius
      (flann_radius_search_body None demo_query (Some 1%positive)
         (Some 1%positive) 2 float_one 32 None demo_world)
      "Invalid index".
  - caught_on Hfree (flann_free_index_body None None demo_world)
      "Invalid index".
  - caught_on Hcenters
      (flann_compute_cluster_centers_body demo_dataset 3 2 2
         (Some 2%positive) (Some 7%positive) demo_world)
      "Branching factor must be at least 2".
  - caught_on Hprec
      (test_with_precision_body None demo_dataset (3, 2) demo_query (1, 2)
         [0] (1, 1) 1 float_one (Some 1%positive) 0 demo_world)
      "Invalid index".
  - caught_on Hchk
      (test_with_checks_body None demo_dataset (3, 2) demo_query (1, 2)
         [0] (1, 1) 1 32 (Some 1%positive) 0 demo_world)
      "Invalid index".
Defined.

(** C2, as the specification words it, does not hold in either direction:
    with a target precision of 1 and a build weight of -1 the call fails
    before the autotuner is built, and with a target precision that is not
    a number (so not at least zero) the autotuner runs. *)
Lemma autotuner_not_iff_precision :
  (float_ge0 (target_precision demo_autotune_negative) = true
   ∧ returned (flann_build_index demo_dataset 3 2 None (Some 3%positive)
                 demo_world)
     = Some None
   ∧ autotuner_invoked
       <$> events_of (flann_build_index demo_dataset 3 2 None
                        (Some 3%positive) demo_world)
     = Some false)
  ∧ (float_ge0 (target_precision demo_nan_precision) = false
     ∧ returned (flann_build_index demo_dataset 3 2 None (Some 5%positive)
                   demo_world)
       = Some (Some 2%positive)
     ∧ autotuner_invoked
         <$> events_of (flann_build_index demo_dataset 3 2 None
                          (Some 5%positive) demo_world)
       = Some true).
Proof. split_and!; vm_compute; reflexivity. Qed.

(** C2, amended, on the demo memory: the block with target precision 1
    and weights 1 and 0 is autotuned, the block with target precision -1 is
    built as given. *)
Lemma autotuner_invoked_iff_witness :
  (∃ evs,
     events_of (flann_build_index demo_dataset 3 2 None (Some 2%positive)
                  demo_world) = Some evs
     ∧ autotuner_invoked evs = true)
  ∧ flann_build_index demo_dataset 3 2 None (Some 1%positive) demo_world
    = try_catch
        (bind (init_flann_parameters (Some 1%positive))
           (λ _, bind (build_as_given demo_params
                         {| ds_rows := 3; ds_cols := 2;
                            ds_data := demo_dataset |})
                   (λ index, ret (Some index))))
        (caught None) demo_world.
Proof.
  split.
  - destruct (autotuner_invoked_iff 2%positive demo_autotune_params
                demo_dataset 3 2 None demo_world eq_refl) as [Hiff _].
    assert (autotuner_invoked
              <$> events_of (flann_build_index demo_dataset 3 2 None
                               (Some 2%positive) demo_world)
            = Some true) as Hrun by (vm_compute; reflexivity).
    destruct (events_of _) as [evs |] eqn:Hevs; [| discriminate Hrun].
    exists evs. split; [reflexivity |].
    apply (Hiff evs eq_refl). split_and!; reflexivity.
  - destruct (autotuner_invoked_iff 1%positive demo_params
                demo_dataset 3 2 None demo_world eq_refl) as [_ Hgiven].
    apply Hgiven. reflexivity.
Defined.

(** C5, as the specification words it, does not hold: with a build weight
    of -1 and no autotuning asked for, the index is built and returned. *)
Lemma negative_weight_accepted :
  float_lt0 (build_weight demo_given_negative) = true
  ∧ returned (flann_build_index demo_dataset 3 2 None (Some 4%positive)
                demo_world)
    = Some (Some 2%positive).
Proof. split; vm_compute; reflexivity. Qed.

(** C5, amended, on the block with target precision 1 and build weight -1. *)
Lemma negative_weight_rejected_witness :
  ∃ w1 e1,
    flann_build_index demo_dataset 3 2 None (Some 3%positive) demo_world
    = Ret None w1
        (e1 ++ [caught_event "The index_params.build_weight must be positive."]).
Proof.
  destruct (negative_weight_rejected 3%positive demo_autotune_negative
              demo_dataset 3 2 None demo_world)
    as (w1 & e1 & _ & Hcall).
  - reflexivity.
  - reflexivity.
  - left. reflexivity.
  - exists w1, e1. exact Hcall.
Defined.

(** C9 on the demo memory: the autotuned build of block 2, with the
    speed-up stored in the first float array. *)
Lemma autotuned_build_restores_witness :
  ∃ w' evs fp',
    flann_build_index demo_dataset 3 2 (Some 1%positive) (Some 2%positive)
      demo_world
    = Ret (Some 2%positive) w' evs
    ∧ mem_params w' !! 2%positive = Some fp'
    ∧ target_precision fp' = float_one
    ∧ build_weight fp' = float_one
    ∧ memory_weight fp' = float_zero
    ∧ sample_fraction fp' = float_one.
Proof.
  assert (returned (flann_build_index demo_dataset 3 2 (Some 1%positive)
                      (Some 2%positive) demo_world)
          = Some (Some 2%positive)) as Hr by (vm_compute; reflexivity).
  destruct (flann_build_index demo_dataset 3 2 (Some 1%positive)
              (Some 2%positive) demo_world) as [r w' evs | |] eqn:Hcall;
    try discriminate Hr.
  cbn in Hr. injection Hr as ->.
  destruct (autotuned_build_restores 2%positive demo_autotune_params
              demo_dataset 3 2 (Some 1%positive) demo_world w' 2%positive evs
              eq_refl eq_refl Hcall)
    as (fp' & Hfp' & H1 & H2 & H3 & H4).
  exists w', evs, fp'. split_and!; done.
Defined.

(** ** flann_radius_search and max_nn *)

(** The function never looks at [max_nn]. *)
Lemma radius_search_max_nn_unused `{C : Collaborators}
    (index_ptr : option handle) (query : list float)
    (indices dists : option loc) (max_nn max_nn' : Z) (radius : float)
    (checks : Z) (flann_params : option loc) (w : World) :
  flann_radius_search index_ptr query indices dists max_nn radius checks
    flann_params w
  = flann_radius_search index_ptr query indices dists max_nn' radius checks
      flann_params w.
Proof. reflexivity. Qed.

(** C1 fails on the code.  The demo library finds three points and
    [max_nn] is 2.  Given arrays of two cells, the loop of lines 321-324
    writes past their end; given arrays of three cells, whose third cell
    held 0, the call returns 3 and all three cells of either array have
    been written. *)
Theorem radius_search_writes_past_max_nn :
  flann_radius_search (Some 1%positive) demo_query (Some 1%positive)
    (Some 1%positive) 2 float_one (-1) None demo_world
  = Crash
  ∧ returned (flann_radius_search (Some 1%positive) demo_query
                (Some 2%positive) (Some 2%positive) 2 float_one (-1) None
                demo_world)
    = Some 3
  ∧ mem_ints demo_world !! 2%positive = Some [0; 0; 0]
  ∧ (w ← world_of (flann_radius_search (Some 1%positive) demo_query
                     (Some 2%positive) (Some 2%positive) 2 float_one (-1)
                     None demo_world);
     mem_ints w !! 2%positive)
    = Some [0; 1; 2]
  ∧ (w ← world_of (flann_radius_search (Some 1%positive) demo_query
                     (Some 2%positive) (Some 2%positive) 2 float_one (-1)
                     None demo_world);
     mem_floats w !! 2%positive)
    = Some [float_zero; float_one; float_one].
Proof. split_and!; vm_compute; reflexivity. Qed.

#[local] Set Warnings "-clear-no-such-hyp".

(** * Further properties of the conversions *)

Section MoreConversionFacts.

Variable verr : exn.

Lemma algorithm_loop_no_match (params : Params) (s : cstr) (tbl : list cstr)
    (i acc : Z) :
  params !! "algorithm" = Some (VStr s) →
  existsb (λ a, ptr_eqb a s) tbl = false →
  algorithm_loop verr tbl i params acc = inr acc.
Proof.
  intros Hs. revert i. induction tbl as [| algo rest IH]; intros i Hno; simpl.
  - reflexivity.
  - simpl in Hno. apply orb_false_elim in Hno as [Hhere Hrest].
    unfold params_at. rewrite Hs. simpl. rewrite Hhere. by apply IH.
Qed.

Lemma centers_init_loop_no_match (params : Params) (c : cstr)
    (tbl : list cstr) (i acc : Z) :
  params !! "centers-init" = Some (VStr c) →
  existsb (λ a, ptr_eqb a c) tbl = false →
  centers_init_loop verr tbl i params acc = acc.
Proof.
  intros Hc. revert i. induction tbl as [| algo rest IH]; intros i Hno; simpl.
  - reflexivity.
  - simpl in Hno. apply orb_false_elim in Hno as [Hhere Hrest].
    unfold params_at. rewrite Hc. simpl. rewrite Hhere. by apply IH.
Qed.

Lemma algorithm_loop_not_a_string (params : Params) (i acc : Z) :
  (∀ s, params !! "algorithm" ≠ Some (VStr s)) →
  algorithm_loop verr algos i params acc = inl verr.
Proof.
  intros Hno. unfold algos; simpl. unfold params_at.
  destruct (params !! "algorithm") as [[| | | s] |] eqn:Hp; try reflexivity.
  by destruct (Hno s).
Qed.

End MoreConversionFacts.

(** X1.  [paramsToParameters] recognises a name by where it is stored, not
    by how it reads: when the strings under "algorithm" and "centers-init"
    are stored at none of the addresses of the two tables, the block gets
    the algorithm LINEAR and the centers CENTERS_RANDOM, whatever the
    strings say. *)
Theorem foreign_strings_give_defaults (verr : exn) (p0 : FLANNParameters)
    (params : Params) (s c : cstr) :
  params !! "algorithm" = Some (VStr s) →
  params !! "centers-init" = Some (VStr c) →
  existsb (λ a, ptr_eqb a s) algos = false →
  existsb (λ a, ptr_eqb a c) centers_algos = false →
  ∃ q, paramsToParameters verr p0 params = inr q
       ∧ algorithm q = LINEAR
       ∧ centers_init q = CENTERS_RANDOM.
Proof.
  intros Hs Hc Hns Hnc. unfold paramsToParameters.
  rewrite (algorithm_loop_no_match verr params s algos 0 LINEAR Hs Hns).
  eexists. split; [reflexivity |].
  cbn [algorithm centers_init]. split; [reflexivity |].
  exact (centers_init_loop_no_match verr params c centers_algos 0
           CENTERS_RANDOM Hc Hnc).
Qed.

(** The autotuner's "kdtree" and "kmeanspp" come back as linear and
    random. *)
Lemma foreign_strings_give_defaults_witness :
  ∃ q, paramsToParameters OtherException demo_garbage demo_foreign = inr q
       ∧ algorithm q = 0
       ∧ centers_init q = 0.
Proof.
  apply (foreign_strings_give_defaults OtherException demo_garbage
           demo_foreign
           {| c_addr := 100; c_text := "kdtree" |}
           {| c_addr := 200; c_text := "kmeanspp" |}).
  - reflexivity.
  - reflexivity.
  - reflexivity.
  - reflexivity.
Defined.

(** X2.  The read of "algorithm" at line 110 stands outside every [try]:
    when the map holds no string under that key, [paramsToParameters]
    does not return a block; the conversion error leaves it, whatever
    else the map holds. *)
Theorem conversion_needs_algorithm (verr : exn) (p0 : FLANNParameters)
    (params : Params) :
  (∀ s, params !! "algorithm" ≠ Some (VStr s)) →
  paramsToParameters verr p0 params = inl verr.
Proof.
  intros Hno. unfold paramsToParameters.
  rewrite (algorithm_loop_not_a_string verr params 0 LINEAR Hno).
  reflexivity.
Qed.

(** On the empty map. *)
Lemma conversion_needs_algorithm_witness :
  paramsToParameters OtherException demo_garbage ∅ = inl OtherException.
Proof.
  apply (conversion_needs_algorithm OtherException demo_garbage ∅).
  intros s Hs. rewrite lookup_empty in Hs. discriminate Hs.
Defined.

(** X3.  The keys of the map [parametersToParams] builds: always "checks",
    "cb_index", "trees", "max-iterations", "branching", "target-precision"
    and "centers-init"; "algorithm" when the field is a position of the
    table; and never any other key (the weights, the sample fraction, the
    seed and the log settings are not passed on). *)
Theorem parametersToParams_keys (pooled : bool) (p : FLANNParameters) :
  dom (parametersToParams pooled p)
  = ({[ "checks"; "cb_index"; "trees"; "max-iterations"; "branching";
        "target-precision"; "centers-init" ]} : gset string)
    ∪ (if (0 <=? algorithm p) && (algorithm p <? ARRAY_LEN algos)
       then {[ "algorithm" ]} else ∅).
Proof.
  unfold parametersToParams.
  destruct ((0 <=? centers_init p)
            && (centers_init p <? ARRAY_LEN centers_algos));
    destruct ((0 <=? algorithm p) && (algorithm p <? ARRAY_LEN algos));
    rewrite !dom_insert_L, dom_empty_L; set_solver.
Qed.

(** X4.  The round trip outside the tables.  A [centers_init] that is no
    position of its table comes back as CENTERS_RANDOM, whether or not the
    literal "random" shares storage with the table; an [algorithm] that is
    no position of its table makes the way back fail, since no "algorithm"
    key was stored. *)
Theorem round_trip_out_of_range (verr : exn) (pooled : bool)
    (p0 p : FLANNParameters) :
  (¬ (0 <= centers_init p < ARRAY_LEN centers_algos) →
   0 <= algorithm p < ARRAY_LEN algos →
   ∃ q, paramsToParameters verr p0 (parametersToParams pooled p) = inr q
        ∧ centers_init q = CENTERS_RANDOM
        ∧ algorithm q = algorithm p)
  ∧ (¬ (0 <= algorithm p < ARRAY_LEN algos) →
     paramsToParameters verr p0 (parametersToParams pooled p) = inl verr).
Proof.
  split.
  - intros Hc Ha.
    pose proof (stored_algorithm pooled p) as Halg.
    pose proof (stored_centers_init pooled p) as Hcen.
    rewrite (in_range_true _ _ Ha) in Halg.
    rewrite (in_range_false _ _ Hc) in Hcen.
    unfold paramsToParameters; cbv zeta.
    rewrite (algorithm_loop_table verr _ _ LINEAR Ha Halg).
    eexists. split; [reflexivity |].
    cbn [algorithm centers_init]. split; [| reflexivity].
    unfold centers_algos; simpl. unfold params_at. rewrite Hcen. simpl.
    destruct pooled; reflexivity.
  - intros Ha. apply conversion_needs_algorithm.
    intros s. rewrite stored_algorithm, (in_range_false _ _ Ha). discriminate.
Qed.

(** On a block with centers 7 and on [demo_garbage], whose algorithm is 77. *)
Lemma round_trip_out_of_range_witness :
  (∃ q, paramsToParameters OtherException demo_garbage
          (parametersToParams true demo_odd_centers) = inr q
        ∧ centers_init q = 0 ∧ algorithm q = 1)
  ∧ paramsToParameters OtherException demo_garbage
      (parametersToParams false demo_garbage) = inl OtherException.
Proof.
  destruct (round_trip_out_of_range OtherException true demo_garbage
              demo_odd_centers) as [Hcenters _].
  destruct (round_trip_out_of_range OtherException false demo_garbage
              demo_garbage) as [_ Halgorithm].
  split.
  - apply Hcenters; unfold ARRAY_LEN; simpl; lia.
  - apply Halgorithm. unfold ARRAY_LEN; simpl; lia.
Defined.

(** * Further properties of the entry points *)

Section MoreBindingFacts.

Context `{C : Collaborators}.

Ltac run :=
  cbn -[init_flann_parameters build_as_given build_autotuned
        store_params assign_field write_float write_int
        paramsToParameters parametersToParams copy_neighbors
        do_search_for_neighbors do_getClusterCenters] in *.

(** X5.  What [init_flann_parameters] changes, given a parameter block:
    the logger's level, and only when [log_level] is not negative; the
    logger's destination, always (a null [log_destination] too); the
    generator.  The caller's memory, the live indices and the distance
    settings stay as they are. *)
Theorem init_touches_logger_and_generator (l : loc) (fp : FLANNParameters)
    (w : World) :
  mem_params w !! l = Some fp →
  ∃ w1 e1,
    init_flann_parameters (Some l) w = Ret tt w1 e1
    ∧ logger_level w1
      = (if 0 <=? log_level fp then log_level fp else logger_level w)
    ∧ logger_destination w1 = log_destination fp
    ∧ mem_params w1 = mem_params w
    ∧ mem_floats w1 = mem_floats w
    ∧ mem_ints w1 = mem_ints w
    ∧ live w1 = live w
    ∧ flann_distance_type w1 = flann_distance_type w
    ∧ flann_minkowski_order w1 = flann_minkowski_order w.
Proof.
  intros H. unfold init_flann_parameters, bind, load_params. rewrite H.
  unfold flann_log_verbosity, flann_log_destination.
  destruct (0 <=? log_level fp); destruct (0 <? random_seed fp); simpl;
    eexists _, _; split_and!; reflexivity.
Qed.

(** *** What leaves an entry point *)

Lemma try_catch_no_runtime_error {A : Type} (body : M A) (sentinel : A)
    (w w' : World) (what : string) (evs : list Event) :
  try_catch body (caught sentinel) w ≠ Raise (RuntimeError what) w' evs.
Proof.
  unfold try_catch.
  destruct (body w) as [a w1 e1 | [what1 |] w1 e1 |]; cbn; discriminate.
Qed.

(** X6.  No [runtime_error] ever leaves an entry point: whatever the
    arguments, the state and the library, none of the eight entry points
    that have a [catch] clause ends by raising one. *)
Theorem no_runtime_error_escapes (w w' : World) (what : string)
    (evs : list Event) :
  (∀ dataset rows cols speedup flann_params,
     flann_build_index dataset rows cols speedup flann_params w
     ≠ Raise (RuntimeError what) w' evs)
  ∧ (∀ dataset rows cols testset tcount result dists nn flann_params,
       flann_find_nearest_neighbors dataset rows cols testset tcount result
         dists nn flann_params w
       ≠ Raise (RuntimeError what) w' evs)
  ∧ (∀ index_ptr testset tcount result dists nn checks flann_params,
       flann_find_nearest_neighbors_index index_ptr testset tcount result
         dists nn checks flann_params w
       ≠ Raise (RuntimeError what) w' evs)
  ∧ (∀ index_ptr query indices dists max_nn radius checks flann_params,
       flann_radius_search index_ptr query indices dists max_nn radius
         checks flann_params w
       ≠ Raise (RuntimeError what) w' evs)
  ∧ (∀ index_ptr flann_params,
       flann_free_index index_ptr flann_params w
       ≠ Raise (RuntimeError what) w' evs)
  ∧ (∀ dataset rows cols clusters result flann_params,
       flann_compute_cluster_centers dataset rows cols clusters result
         flann_params w
       ≠ Raise (RuntimeError what) w' evs)
  ∧ (∀ index_ptr dataset dshape testset tshape matches mshape nn precision
       checks skip,
       test_with_precision index_ptr dataset dshape testset tshape matches
         mshape nn precision checks skip w
       ≠ Raise (RuntimeError what) w' evs)
  ∧ (∀ index_ptr dataset dshape testset tshape matches mshape nn checks
       precision skip,
       test_with_checks index_ptr dataset dshape testset tshape matches
         mshape nn checks precision skip w
       ≠ Raise (RuntimeError what) w' evs).
Proof.
  split_and!.
  1-6: intros; apply try_catch_no_runtime_error.
  - intros index_ptr dataset dshape testset tshape matches mshape nn
      precision chk skip.
    unfold test_with_precision, bind, assert.
    destruct (dshape.2 =? tshape.2); [| discriminate].
    destruct (tshape.1 =? mshape.1); [| discriminate]. cbn.
    pose proof (try_catch_no_runtime_error
                  (test_with_precision_body index_ptr dataset dshape testset
                     tshape matches mshape nn precision chk skip)
                  float_minus_one w) as Hno.
    destruct (try_catch _ _ w) as [a w1 e1 | x w1 e1 |]; try discriminate.
    intros [= -> -> <-]. by eapply Hno.
  - intros index_ptr dataset dshape testset tshape matches mshape nn chk
      precision skip.
    unfold test_with_checks, bind, assert.
    destruct (dshape.2 =? tshape.2); [| discriminate].
    destruct (tshape.1 =? mshape.1); [| discriminate]. cbn.
    pose proof (try_catch_no_runtime_error
                  (test_with_checks_body index_ptr dataset dshape testset
                     tshape matches mshape nn chk precision skip)
                  float_minus_one w) as Hno.
    destruct (try_catch _ _ w) as [a w1 e1 | x w1 e1 |]; try discriminate.
    intros [= -> -> <-]. by eapply Hno.
Qed.

(** X7.  Two entry points read the parameter block without testing the
    pointer: with a null [flann_params], [flann_find_nearest_neighbors]
    and [flann_compute_cluster_centers] dereference it (lines 218 and 360)
    instead of failing with -1 as [flann_build_index] does with its null
    handle. *)
Theorem null_params_dereferenced (w : World) :
  (∀ dataset rows cols testset tcount result dists nn,
     flann_find_nearest_neighbors dataset rows cols testset tcount result
       dists nn None w = Crash)
  ∧ (∀ dataset rows cols clusters result,
       flann_compute_cluster_centers dataset rows cols clusters result None w
       = Crash).
Proof. split; intros; reflexivity. Qed.


End MoreBindingFacts.


(** X5 on the block at address 1 of the demo memory. *)
Lemma init_touches_logger_and_generator_witness :
  ∃ w1 e1,
    init_flann_parameters (Some 1%positive) demo_world = Ret tt w1 e1
    ∧ logger_level w1 = 1
    ∧ logger_destination w1 = None
    ∧ mem_params w1 = mem_params demo_world
    ∧ live w1 = live demo_world.
Proof.
  destruct (init_touches_logger_and_generator 1%positive demo_params
              demo_world eq_refl)
    as (w1 & e1 & Hi & Hlevel & Hdest & Hp & _ & _ & Hl & _).
  exists w1, e1. split_and!; assumption.
Defined.

(** * The life of an index *)

Section IndexLifeFacts.

Context `{C : Collaborators}.

Ltac run :=
  cbn -[init_flann_parameters build_as_given build_autotuned
        store_params assign_field write_float write_int
        paramsToParameters parametersToParams copy_neighbors
        do_search_for_neighbors do_getClusterCenters] in *.

(** Building an index as given touches neither the caller's memory nor
    the indices that are live already. *)
Lemma build_as_given_frame (fp : FLANNParameters) (data : Dataset)
    (w w' : World) :
  world_of (build_as_given fp data w) = Some w' →
  mem_params w' = mem_params w
  ∧ mem_floats w' = mem_floats w
  ∧ mem_ints w' = mem_ints w
  ∧ live w ⊆ live w'.
Proof.
  unfold build_as_given, algorithm_name, do_create_index, do_buildIndex,
    logger_info, lift, call, bind, emit, throw, ret.
  repeat (case_match; simplify_eq); cbn; intros [= <-]; cbn;
    split_and!; try reflexivity; set_solver.
Qed.





Lemma write_float_live (p : option loc) (i : Z) (v : float) (w w' : World)
    (e : list Event) :
  write_float p i v w = Ret tt w' e → live w' = live w.
Proof.
  unfold write_float, bind, load_floats, store_floats, crash.
  destruct p as [s |]; [| done].
  destruct (mem_floats w !! s) as [a |] eqn:Ha; [| done].
  destruct ((0 <=? i) && (i <? Z.of_nat (length a))); [| done].
  rewrite Ha. by intros [= <- _].
Qed.


(** X9.  Without autotuning ([target_precision] below zero)
    [flann_build_index] writes nothing into the caller's memory, however
    the call ends: the parameter block is as it was and no speed-up is
    stored, even when [speedup] is not null. *)
Theorem build_as_given_writes_nothing (l : loc) (fp : FLANNParameters)
    (dataset : list float) (rows cols : Z) (speedup : option loc)
    (w w' : World) :
  mem_params w !! l = Some fp →
  float_lt0 (target_precision fp) = true →
  world_of (flann_build_index dataset rows cols speedup (Some l) w) = Some w' →
  mem_params w' = mem_params w
  ∧ mem_floats w' = mem_floats w
  ∧ mem_ints w' = mem_ints w.
Proof.
  intros Hfp Htp Hw.
  destruct (init_run l fp w Hfp) as (w1 & e1 & Hi & Hm & Hf & Hn & _).
  unfold flann_build_index, try_catch, flann_build_index_body, bind in Hw.
  run. rewrite Hi in Hw. unfold load_params in Hw.
  rewrite Hm, Hfp in Hw. run. rewrite Htp in Hw.
  pose proof (build_as_given_frame fp
      {| ds_rows := rows; ds_cols := cols; ds_data := dataset |} w1) as Hfr.
  destruct (build_as_given _ _ w1) as [a w2 e2 | [what |] w2 e2 |];
    cbn in Hw, Hfr; simplify_eq;
    destruct (Hfr _ eq_refl) as (-> & -> & -> & _); done.
Qed.


(** X11.  A handle can be freed once: after [flann_free_index] has
    returned 0 for it, the object is gone, and a second
    [flann_free_index] on the same handle deletes a dead object. *)
Theorem double_free_is_undefined (index : handle)
    (flann_params flann_params' : option loc) (w w' : World)
    (evs : list Event) :
  flann_free_index (Some index) flann_params w = Ret 0 w' evs →
  params_ptr_ok flann_params' w' →
  flann_free_index (Some index) flann_params' w' = Crash.
Proof.
  intros Hfirst Hok.
  assert (index ∉ live w') as Hdead.
  { apply try_catch_ret_inv in Hfirst as [Hbody | (? & ? & _ & ? & _)];
      [| done].
    unfold flann_free_index_body, bind, check_live in Hbody.
    destruct (init_flann_parameters flann_params w) as [[] w1 e1 | |];
      [| done | done].
    destruct (bool_decide (index ∈ live w1)); [| done].
    cbn in Hbody. injection Hbody as <- _. cbn.
    apply not_elem_of_difference. right. by apply elem_of_singleton. }
  destruct (init_ok flann_params' w' Hok) as (w1 & e1 & Hi & _ & Hl & _).
  unfold flann_free_index, try_catch, flann_free_index_body, bind, check_live.
  rewrite Hi, Hl. rewrite bool_decide_eq_false_2 by done. reflexivity.
Qed.

End IndexLifeFacts.

(** * flann_find_nearest_neighbors and the autotuned parameter block *)

Section NearestNeighborsFacts.

Context `{C : Collaborators}.

Ltac run :=
  cbn -[init_flann_parameters build_as_given build_autotuned
        store_params assign_field write_float write_int
        paramsToParameters parametersToParams copy_neighbors
        do_search_for_neighbors do_getClusterCenters] in *.

Lemma do_search_events (index : handle) (testset : Dataset) (nn : Z)
    (result dists : option loc) (params : Params) (w : World)
    (evs : list Event) :
  events_of (do_search_for_neighbors index testset nn result dists params w)
  = Some evs →
  evs = [EvSearchForNeighbors index testset nn params].
Proof.
  unfold do_search_for_neighbors, bind, load_ints, load_floats, store_ints,
    store_floats, call.
  repeat (case_match; simplify_eq); cbn in *;
    repeat (case_match; simplify_eq); cbn; intros ?; by simplify_eq.
Qed.

Lemma do_search_frame (index : handle) (testset : Dataset) (nn : Z)
    (result dists : option loc) (params : Params) (w w' : World) :
  world_of (do_search_for_neighbors index testset nn result dists params w)
  = Some w' →
  mem_params w' = mem_params w ∧ live w' = live w.
Proof.
  unfold do_search_for_neighbors, bind, load_ints, load_floats, store_ints,
    store_floats, call.
  repeat (case_match; simplify_eq); cbn in *;
    repeat (case_match; simplify_eq); cbn; intros ?; by simplify_eq.
Qed.

(** Replace what is known of a collaborator call by what it says about
    the events. *)
Ltac call_events :=
  repeat match goal with
    | H : do_search_for_neighbors ?i ?t ?n ?r ?d ?p ?w0 = _ |- _ =>
        let Hs := fresh "Hs" in
        pose proof (do_search_events i t n r d p w0) as Hs;
        rewrite H in Hs; specialize (Hs _ eq_refl); clear H
    | H : build_as_given ?fp ?d ?w0 = _ |- _ =>
        let Hs := fresh "Hs" in
        pose proof (build_as_given_events fp d w0) as Hs;
        rewrite H in Hs; specialize (Hs _ eq_refl); clear H
    | H : build_autotuned ?fp ?d ?tp ?w0 = _ |- _ =>
        let Hs := fresh "Hs" in
        destruct (build_autotuned_events fp d tp w0) as (? & Hs & ?);
        rewrite H in Hs; cbn in Hs; simplify_eq; clear H
    end.


Lemma autotuner_invoked_cons (e : Event) (evs : list Event) :
  autotuner_invoked (e :: evs) = is_autotune_event e || autotuner_invoked evs.
Proof. reflexivity. Qed.

(** Decide whether the autotuner shows in a list of events put together
    from known pieces. *)
Ltac invoked :=
  repeat (rewrite autotuner_invoked_app || rewrite autotuner_invoked_cons);
  repeat match goal with
    | H : autotuner_invoked _ = _ |- _ => rewrite H
    end;
  cbn; rewrite ?orb_true_r; cbn.

(** X12.  [flann_find_nearest_neighbors] has no test of the weights: for
    a call with a parameter block, the autotuner is invoked exactly when
    [target_precision] is not below zero, negative weights or not. *)
Theorem nearest_neighbors_autotunes_any_weight (l : loc)
    (fp : FLANNParameters) (dataset : list float) (rows cols : Z)
    (testset : list float) (tcount : Z) (result dists : option loc) (nn : Z)
    (w : World) (evs : list Event) :
  mem_params w !! l = Some fp →
  events_of (flann_find_nearest_neighbors dataset rows cols testset tcount
               result dists nn (Some l) w) = Some evs →
  (autotuner_invoked evs = true ↔ float_lt0 (target_precision fp) = false).
Proof.
  intros Hfp Hev.
  destruct (init_run l fp w Hfp) as (w1 & e1 & Hi & Hm & _ & _ & _ & _ & He).
  assert (autotuner_invoked e1 = false) as He1.
  { subst e1. destruct (0 <? random_seed fp); reflexivity. }
  clear He.
  unfold flann_find_nearest_neighbors, try_catch,
    flann_find_nearest_neighbors_body, bind in Hev.
  run. rewrite Hi in Hev. unfold load_params in Hev.
  rewrite Hm, Hfp in Hev. run.
  destruct (float_lt0 (target_precision fp)) eqn:Htp.
  - repeat (case_match; simplify_eq); call_events;
      cbn in Hev; simplify_eq; invoked; split; discriminate.
  - split; [done | intros _].
    repeat (case_match; simplify_eq); call_events;
      cbn in Hev; simplify_eq; invoked; reflexivity.
Qed.

(** The fields [paramsToParameters] never assigns are those of the
    unassigned local. *)
Lemma unassigned_fields (verr : exn) (p0 q : FLANNParameters)
    (params : Params) :
  paramsToParameters verr p0 params = inr q →
  log_level q = log_level p0
  ∧ log_destination q = log_destination p0
  ∧ random_seed q = random_seed p0
  ∧ build_weight q = build_weight p0
  ∧ memory_weight q = memory_weight p0
  ∧ sample_fraction q = sample_fraction p0.
Proof.
  unfold paramsToParameters.
  destruct (algorithm_loop verr algos 0 params LINEAR); [done |].
  intros [= <-]. split_and!; reflexivity.
Qed.

(** X13.  After a successful autotuned [flann_build_index] the caller's
    block no longer holds the caller's log level, log destination and
    seed: line 192 copies a block in which these three fields were never
    assigned, and only the four fields of C9 are put back. *)
Theorem autotuned_build_drops_log_settings (l : loc) (fp : FLANNParameters)
    (dataset : list float) (rows cols : Z) (speedup : option loc)
    (w w' : World) (index : handle) (evs : list Event) :
  mem_params w !! l = Some fp →
  float_lt0 (target_precision fp) = false →
  flann_build_index dataset rows cols speedup (Some l) w
  = Ret (Some index) w' evs →
  ∃ fp',
    mem_params w' !! l = Some fp'
    ∧ log_level fp' = log_level stack_garbage
    ∧ log_destination fp' = log_destination stack_garbage
    ∧ random_seed fp' = random_seed stack_garbage.
Proof.
  intros Hfp Htp Hcall.
  apply try_catch_ret_inv in Hcall as [Hbody | (? & ? & _ & ? & _)]; [| done].
  destruct (init_run l fp w Hfp) as (w1 & e1 & Hi & Hm & _).
  unfold flann_build_index_body, bind in Hbody.
  run. rewrite Hi in Hbody. unfold load_params in Hbody.
  rewrite Hm, Hfp in Hbody. run. rewrite Htp in Hbody.
  repeat (case_match; simplify_eq).
  all: unfold lift, throw in *; repeat (case_match; simplify_eq).
  all: unfold ret in *; simplify_eq.
  all: repeat match goal with a : unit |- _ => destruct a end.
  all: repeat match goal with
         | H : paramsToParameters _ _ _ = inr _ |- _ =>
             apply unassigned_fields in H as (? & ? & ? & _)
         | H : store_params (Some _) _ _ = Ret _ _ _ |- _ =>
             apply store_params_at in H
         | H : assign_field (Some ?a) _ ?w0 = Ret _ _ _,
           H0 : mem_params ?w0 !! ?a = Some _ |- _ =>
             apply (assign_field_at _ _ _ _ _ _ H) in H0; clear H
         | H : write_float _ _ _ _ = Ret _ _ _ |- _ =>
             apply write_float_params in H
         end.
  all: try match goal with
         | H : mem_params ?a = mem_params _ |- context [mem_params ?a] =>
             rewrite H
         end.
  all: eexists; split; [eassumption | split_and!; assumption].
Qed.

(** X14.  [flann_find_nearest_neighbors] puts nothing back: after a
    successful autotuned call the caller's block is the tuned one as
    line 238 stored it, so that besides the log settings and the seed also
    [build_weight], [memory_weight] and [sample_fraction] are those of a
    block that was never assigned. *)
Theorem autotuned_search_drops_weights (l : loc) (fp : FLANNParameters)
    (dataset : list float) (rows cols : Z) (testset : list float)
    (tcount : Z) (result dists : option loc) (nn : Z) (w w' : World)
    (evs : list Event) :
  mem_params w !! l = Some fp →
  float_lt0 (target_precision fp) = false →
  flann_find_nearest_neighbors dataset rows cols testset tcount result dists
    nn (Some l) w
  = Ret 0 w' evs →
  ∃ fp',
    mem_params w' !! l = Some fp'
    ∧ build_weight fp' = build_weight stack_garbage
    ∧ memory_weight fp' = memory_weight stack_garbage
    ∧ sample_fraction fp' = sample_fraction stack_garbage
    ∧ log_level fp' = log_level stack_garbage
    ∧ log_destination fp' = log_destination stack_garbage
    ∧ random_seed fp' = random_seed stack_garbage.
Proof.
  intros Hfp Htp Hcall.
  apply try_catch_ret_inv in Hcall as [Hbody | (? & ? & _ & ? & _)]; [| done].
  destruct (init_run l fp w Hfp) as (w1 & e1 & Hi & Hm & _).
  unfold flann_find_nearest_neighbors_body, bind in Hbody.
  run. rewrite Hi in Hbody. unfold load_params in Hbody.
  rewrite Hm, Hfp in Hbody. run. rewrite Htp in Hbody.
  repeat (case_match; simplify_eq).
  all: unfold lift, throw in *; repeat (case_match; simplify_eq).
  all: unfold ret in *; simplify_eq.
  all: repeat match goal with a : unit |- _ => destruct a end.
  all: repeat match goal with
         | H : paramsToParameters _ _ _ = inr _ |- _ =>
             apply unassigned_fields in H as (? & ? & ? & ? & ? & ?)
         | H : store_params (Some _) _ _ = Ret _ _ _ |- _ =>
             apply store_params_at in H
         | H : do_search_for_neighbors ?i ?t ?n ?r ?d ?p ?w0 = Ret _ ?w1 _
           |- _ =>
             let Hs := fresh "Hs" in
             pose proof (do_search_frame i t n r d p w0 w1) as Hs;
             rewrite H in Hs; destruct (Hs eq_refl) as [? _]; clear H Hs
         end.
  all: cbn.
  all: try match goal with
         | H : mem_params ?a = mem_params _ |- context [mem_params ?a] =>
             rewrite H
         end.
  all: simplify_eq.
  all: eexists; split; [eassumption | split_and!; assumption].
Qed.

(** *** Who deletes the index *)








End NearestNeighborsFacts.

(** * flann_radius_search with room in the arrays *)

Section RadiusSearchFacts.

Context `{C : Collaborators}.







Lemma write_int_no_raise (p : option loc) (i v : Z) (w w' : World) (x : exn)
    (e : list Event) :
  write_int p i v w ≠ Raise x w' e.
Proof.
  unfold write_int, bind, load_ints, store_ints, crash.
  destruct p as [l |]; [| done].
  destruct (mem_ints w !! l) as [a |] eqn:Ha; [| done].
  destruct ((0 <=? i) && (i <? Z.of_nat (length a))); [| done].
  by rewrite Ha.
Qed.

Lemma write_float_no_raise (p : option loc) (i : Z) (v : float)
    (w w' : World) (x : exn) (e : list Event) :
  write_float p i v w ≠ Raise x w' e.
Proof.
  unfold write_float, bind, load_floats, store_floats, crash.
  destruct p as [l |]; [| done].
  destruct (mem_floats w !! l) as [a |] eqn:Ha; [| done].
  destruct ((0 <=? i) && (i <? Z.of_nat (length a))); [| done].
  by rewrite Ha.
Qed.

(** No exception leaves the copy loop. *)
Lemma copy_neighbors_no_raise (found : list (Z * float)) (i : Z)
    (indices dists : option loc) (w w' : World) (x : exn) (e : list Event) :
  copy_neighbors found i indices dists w ≠ Raise x w' e.
Proof.
  revert i w w' x e. induction found as [| [neighbor distance] rest IH];
    intros i w w' x e; [done |].
  cbn [copy_neighbors]. unfold bind at 1.
  pose proof (write_int_no_raise indices i neighbor w) as Hint.
  destruct (write_int indices i neighbor w) as [[] w1 e1 | y w1 e1 |];
    [| by destruct (Hint w1 y e1) | done].
  unfold bind at 1.
  pose proof (write_float_no_raise dists i distance w1) as Hfl.
  destruct (write_float dists i distance w1) as [[] w2 e2 | y w2 e2 |];
    [| by destruct (Hfl w2 y e2) | done].
  pose proof (IH (i + 1) w2) as Hrest.
  destruct (copy_neighbors rest (i + 1) indices dists w2)
    as [[] w3 e3 | y w3 e3 |]; [done | | done].
  by destruct (Hrest w3 y e3).
Qed.

Lemma init_outcome (p : option loc) (w : World) :
  init_flann_parameters p w = Crash
  ∨ ∃ w1 e1,
      init_flann_parameters p w = Ret tt w1 e1
      ∧ mem_ints w1 = mem_ints w ∧ mem_floats w1 = mem_floats w.
Proof.
  destruct p as [l |].
  - unfold init_flann_parameters, bind, load_params.
    destruct (mem_params w !! l) as [fp |]; [| by left].
    unfold flann_log_verbosity, flann_log_destination.
    right.
    destruct (0 <=? log_level fp); destruct (0 <? random_seed fp); cbn;
      eexists _, _; split_and!; reflexivity.
  - right. by exists w, [].
Qed.

(** X18.  A failed [flann_radius_search] has written nothing: whenever
    the call returns -1, [indices] and [dists], and every other array of
    the caller, are as they were. *)
Theorem radius_search_failure_writes_nothing (index_ptr : option handle)
    (query : list float) (indices dists : option loc) (max_nn : Z)
    (radius : float) (checks : Z) (flann_params : option loc)
    (w w' : World) (evs : list Event) :
  flann_radius_search index_ptr query indices dists max_nn radius checks
    flann_params w
  = Ret (-1) w' evs →
  mem_ints w' = mem_ints w ∧ mem_floats w' = mem_floats w.
Proof.
  unfold flann_radius_search, try_catch, flann_radius_search_body, bind,
    check_live, get_veclen, call.
  destruct (init_outcome flann_params w) as [-> | (w1 & e1 & -> & Hn & Hf)];
    [done |].
  destruct index_ptr as [index |].
  - destruct (bool_decide (index ∈ live w1)); [| done]. cbn.
    destruct (findNeighbors _ _ _ _ (ext w1)) as [[err | found] x]; cbn.
    + destruct err; cbn; intros ?; by simplify_eq.
    + pose proof (copy_neighbors_no_raise found 0 indices dists
                    (with_ext x w1)) as Hcopy.
      destruct (copy_neighbors found 0 indices dists (with_ext x w1))
        as [[] w2 e2 | y w2 e2 |]; cbn.
      * intros ?. simplify_eq. lia.
      * by destruct (Hcopy w2 y e2).
      * done.
  - cbn. intros ?. by simplify_eq.
Qed.

End RadiusSearchFacts.

(** * An algorithm outside the table *)

Section UnknownAlgorithmFacts.

Context `{C : Collaborators}.

(** X19.  Without autotuning, a parameter block whose [algorithm] is no
    position of the table never reaches the index factory:
    [parametersToParams] stores no "algorithm", the conversion of line 171
    fails, and the body of [flann_build_index] is left right after the
    line "Building index" was logged.  When the conversion error is a
    [runtime_error] the call returns the null handle. *)
Theorem unknown_algorithm_builds_nothing (l : loc) (fp : FLANNParameters)
    (dataset : list float) (rows cols : Z) (speedup : option loc)
    (w : World) :
  mem_params w !! l = Some fp →
  float_lt0 (target_precision fp) = true →
  ¬ (0 <= algorithm fp < ARRAY_LEN algos) →
  ∃ w1 e1,
    init_flann_parameters (Some l) w = Ret tt w1 e1
    ∧ flann_build_index_body dataset rows cols speedup (Some l) w
      = Raise variant_error w1
          (e1 ++ [EvLogInfo ("Building index" +:+ newline) []])
    ∧ (∀ what,
         variant_error = RuntimeError what →
         flann_build_index dataset rows cols speedup (Some l) w
         = Ret None w1
             (e1 ++ [EvLogInfo ("Building index" +:+ newline) [];
                     caught_event what])).
Proof.
  intros Hfp Htp Halg.
  destruct (init_run l fp w Hfp) as (w1 & e1 & Hi & Hm & _).
  exists w1, e1. split; [exact Hi |].
  assert (flann_build_index_body dataset rows cols speedup (Some l) w
          = Raise variant_error w1
              (e1 ++ [EvLogInfo ("Building index" +:+ newline) []]))
    as Hbody.
  { unfold flann_build_index_body, bind.
    cbn -[init_flann_parameters build_as_given]. rewrite Hi.
    unfold load_params. rewrite Hm, Hfp.
    cbn -[init_flann_parameters build_as_given]. rewrite Htp.
    unfold build_as_given, algorithm_name, bind, logger_info, emit, lift,
      params_at.
    rewrite stored_algorithm, (in_range_false _ _ Halg). reflexivity. }
  split; [exact Hbody |].
  intros what Hwhat. unfold flann_build_index, try_catch.
  rewrite Hbody, Hwhat. cbn. by rewrite <- app_assoc.
Qed.

End UnknownAlgorithmFacts.

(** * What the query entry points leave alone *)

Section QueryFrameFacts.

Context `{C : Collaborators}.

Lemma init_keeps (p : option loc) (w : World) :
  init_flann_parameters p w = Crash
  ∨ ∃ w1 e1,
      init_flann_parameters p w = Ret tt w1 e1
      ∧ live w1 = live w ∧ mem_params w1 = mem_params w.
Proof.
  destruct p as [l |].
  - unfold init_flann_parameters, bind, load_params.
    destruct (mem_params w !! l) as [fp |]; [| by left].
    unfold flann_log_verbosity, flann_log_destination.
    right.
    destruct (0 <=? log_level fp); destruct (0 <? random_seed fp); cbn;
      eexists _, _; split_and!; reflexivity.
  - right. by exists w, [].
Qed.

Lemma write_int_keeps (p : option loc) (i v : Z) (w w' : World)
    (e : list Event) :
  write_int p i v w = Ret tt w' e →
  live w' = live w ∧ mem_params w' = mem_params w.
Proof.
  unfold write_int, bind, load_ints, store_ints, crash.
  destruct p as [l |]; [| done].
  destruct (mem_ints w !! l) as [a |] eqn:Ha; [| done].
  destruct ((0 <=? i) && (i <? Z.of_nat (length a))); [| done].
  rewrite Ha. intros ?. by simplify_eq.
Qed.

Lemma copy_neighbors_keeps (found : list (Z * float)) (i : Z)
    (indices dists : option loc) (w w' : World) (e : list Event) :
  copy_neighbors found i indices dists w = Ret tt w' e →
  live w' = live w ∧ mem_params w' = mem_params w.
Proof.
  revert i w w' e. induction found as [| [neighbor distance] rest IH];
    intros i w w' e.
  - cbn. unfold ret. intros ?. by simplify_eq.
  - cbn [copy_neighbors]. unfold bind at 1.
    destruct (write_int indices i neighbor w) as [[] w1 e1 | |] eqn:Hint;
      [| done | done].
    unfold bind at 1.
    destruct (write_float dists i distance w1) as [[] w2 e2 | |] eqn:Hfl;
      [| done | done].
    destruct (copy_neighbors rest (i + 1) indices dists w2)
      as [[] w3 e3 | |] eqn:Hrest; [| done | done].
    intros ?. simplify_eq.
    destruct (write_int_keeps _ _ _ _ _ _ Hint) as [Hl1 Hp1].
    pose proof (write_float_live _ _ _ _ _ _ Hfl) as Hl2.
    pose proof (write_float_params _ _ _ _ _ _ Hfl) as Hp2.
    destruct (IH _ _ _ _ Hrest) as [Hl3 Hp3].
    split; congruence.
Qed.

Lemma do_getClusterCenters_keeps (kmeans : handle) (clusters : Z)
    (result : option loc) (w w' : World) :
  world_of (do_getClusterCenters kmeans clusters result w) = Some w' →
  live w' = live w ∧ mem_params w' = mem_params w.
Proof.
  unfold do_getClusterCenters, bind, load_floats, store_floats, call.
  repeat (case_match; simplify_eq); cbn in *;
    repeat (case_match; simplify_eq); cbn; intros ?; by simplify_eq.
Qed.

(** X20.  Searching does not change who is alive.  However they end,
    [flann_find_nearest_neighbors_index], [flann_radius_search] and
    [flann_compute_cluster_centers] leave the set of live indices and the
    caller's parameter block as they were: they neither create nor delete
    an index for the caller, and never write the block. *)
Theorem queries_keep_indices_and_block (flann_params : option loc)
    (w w' : World) :
  (∀ index_ptr testset tcount result dists nn chk,
     world_of (flann_find_nearest_neighbors_index index_ptr testset tcount
                 result dists nn chk flann_params w) = Some w' →
     live w' = live w ∧ mem_params w' = mem_params w)
  ∧ (∀ index_ptr query indices dists max_nn radius chk,
       world_of (flann_radius_search index_ptr query indices dists max_nn
                   radius chk flann_params w) = Some w' →
       live w' = live w ∧ mem_params w' = mem_params w)
  ∧ (∀ dataset rows cols clusters result,
       world_of (flann_compute_cluster_centers dataset rows cols clusters
                   result flann_params w) = Some w' →
       live w' = live w ∧ mem_params w' = mem_params w).
Proof.
  split_and!.
  - intros index_ptr testset tcount result dists nn chk.
    unfold flann_find_nearest_neighbors_index, try_catch,
      flann_find_nearest_neighbors_index_body, bind, check_live, get_veclen.
    destruct (init_keeps flann_params w) as [-> | (w1 & e1 & -> & Hl & Hp)];
      [done |].
    destruct index_ptr as [index |]; [| cbn; intros ?; by simplify_eq].
    destruct (bool_decide (index ∈ live w1)); [| done].
    cbn -[do_search_for_neighbors].
    match goal with
    | |- context [do_search_for_neighbors ?i ?t ?n ?r ?d ?p ?w0] =>
        pose proof (do_search_frame i t n r d p w0) as Hs;
        destruct (do_search_for_neighbors i t n r d p w0)
          as [[] w2 e2 | [what |] w2 e2 |]
    end; cbn in *; intros ?; simplify_eq;
      destruct (Hs _ eq_refl) as [Hl2 Hp2]; cbn in *; split; congruence.
  - intros index_ptr query indices dists max_nn radius chk.
    unfold flann_radius_search, try_catch, flann_radius_search_body, bind,
      check_live, get_veclen, call.
    destruct (init_keeps flann_params w) as [-> | (w1 & e1 & -> & Hl & Hp)];
      [done |].
    destruct index_ptr as [index |]; [| cbn; intros ?; by simplify_eq].
    destruct (bool_decide (index ∈ live w1)); [| done]. cbn.
    destruct (findNeighbors _ _ _ _ (ext w1)) as [[err | found] x]; cbn.
    + destruct err; cbn; intros ?; by simplify_eq.
    + pose proof (copy_neighbors_no_raise found 0 indices dists
                    (with_ext x w1)) as Hno.
      pose proof (copy_neighbors_keeps found 0 indices dists
                    (with_ext x w1)) as Hkeep.
      destruct (copy_neighbors found 0 indices dists (with_ext x w1))
        as [[] w2 e2 | y w2 e2 |]; cbn.
      * intros ?. simplify_eq.
        destruct (Hkeep _ _ eq_refl) as [Hl2 Hp2]. cbn in *. split; congruence.
      * by destruct (Hno w2 y e2).
      * done.
  - intros dataset rows cols clusters result.
    unfold flann_compute_cluster_centers, try_catch,
      flann_compute_cluster_centers_body, bind, load_params, call,
      with_cleanup, do_buildIndex, do_destroy, call, ret.
    destruct (init_keeps flann_params w) as [-> | (w1 & e1 & -> & Hl & Hp)];
      [done |].
    destruct flann_params as [l |]; [| done].
    destruct (mem_params w1 !! l) as [fp |]; [| done].
    cbn -[do_getClusterCenters parametersToParams].
    destruct (KMeansTree_new _ _ (ext w1)) as [[err | kmeans] x];
      cbn -[do_getClusterCenters parametersToParams].
    + destruct err; cbn; intros ?; by simplify_eq.
    + destruct (buildIndex kmeans x) as [[err | []] x'];
        cbn -[do_getClusterCenters parametersToParams].
      * destruct err; cbn; intros ?; by simplify_eq.
      * match goal with
        | |- context [do_getClusterCenters ?k ?c ?r ?w0] =>
            pose proof (do_getClusterCenters_keeps k c r w0) as Hs;
            destruct (do_getClusterCenters k c r w0)
              as [n w2 e2 | [what |] w2 e2 |]
        end; cbn in *; intros ?; simplify_eq;
          destruct (Hs _ eq_refl) as [Hl2 Hp2]; cbn in *; split; congruence.
Qed.

(** X21.  The two test helpers with a null index and shapes that agree:
    they log "Invalid index" and return -1.0f without having read
    [*checks] or [*precision] (which may be null) and without any change
    of state; they do not call [init_flann_parameters] at all. *)
Theorem test_helpers_null_index (dataset : list float) (dshape : Z * Z)
    (testset : list float) (tshape : Z * Z) (matches : list Z)
    (mshape : Z * Z) (nn : Z) (precision : float) (chk : Z)
    (p : option loc) (skip : Z) (w : World) :
  dshape.2 = tshape.2 →
  tshape.1 = mshape.1 →
  test_with_precision None dataset dshape testset tshape matches mshape nn
    precision p skip w
  = Ret float_minus_one w [caught_event "Invalid index"]
  ∧ test_with_checks None dataset dshape testset tshape matches mshape nn
      chk p skip w
    = Ret float_minus_one w [caught_event "Invalid index"].
Proof.
  intros Hd Ht. unfold test_with_precision, test_with_checks, bind, assert.
  rewrite (proj2 (Z.eqb_eq _ _) Hd), (proj2 (Z.eqb_eq _ _) Ht).
  split; reflexivity.
Qed.

End QueryFrameFacts.

(** * The further properties on the demo library *)

(** Run a call on the demo library and name what it returned. *)
Ltac demo_returns call v Hcall :=
  let Hr := fresh "Hr" in
  assert (returned call = Some v) as Hr by (vm_compute; reflexivity);
  destruct call as [? ? ? | |] eqn:Hcall; try discriminate Hr;
  cbn in Hr; injection Hr as ->.

(** X9 on the block at address 1, with a speed-up pointer that is not
    null. *)
Lemma build_as_given_writes_nothing_witness :
  ∃ w',
    world_of (flann_build_index demo_dataset 3 2 (Some 1%positive)
                (Some 1%positive) demo_world) = Some w'
    ∧ mem_params w' = mem_params demo_world
    ∧ mem_floats w' = mem_floats demo_world.
Proof.
  demo_returns (flann_build_index demo_dataset 3 2 (Some 1%positive)
                  (Some 1%positive) demo_world) (Some 2%positive) Hcall.
  eexists. split; [reflexivity |].
  destruct (build_as_given_writes_nothing 1%positive demo_params
              demo_dataset 3 2 (Some 1%positive) demo_world w eq_refl eq_refl)
    as (Hp & Hf & _).
  - exact (f_equal world_of Hcall).
  - by split.
Defined.


(** X11 on the live index of the demo memory: the second free. *)
Lemma double_free_is_undefined_witness :
  ∃ w' evs,
    flann_free_index (Some 1%positive) None demo_world = Ret 0 w' evs
    ∧ flann_free_index (Some 1%positive) None w' = Crash.
Proof.
  demo_returns (flann_free_index (Some 1%positive) None demo_world) 0 Hcall.
  eexists _, _. split; [reflexivity |].
  exact (double_free_is_undefined 1%positive None None demo_world _ _
           Hcall I).
Defined.

(** X12 on the block with target precision 1 and build weight -1. *)
Lemma nearest_neighbors_autotunes_any_weight_witness :
  float_lt0 (build_weight demo_autotune_negative) = true
  ∧ ∃ evs,
      events_of (flann_find_nearest_neighbors demo_dataset 3 2 demo_query 1
                   (Some 1%positive) (Some 1%positive) 2 (Some 3%positive)
                   demo_world) = Some evs
      ∧ autotuner_invoked evs = true.
Proof.
  split; [reflexivity |].
  demo_returns (flann_find_nearest_neighbors demo_dataset 3 2 demo_query 1
                  (Some 1%positive) (Some 1%positive) 2 (Some 3%positive)
                  demo_world) 0 Hcall.
  eexists. split; [reflexivity |].
  apply (nearest_neighbors_autotunes_any_weight 3%positive
           demo_autotune_negative demo_dataset 3 2 demo_query 1
           (Some 1%positive) (Some 1%positive) 2 demo_world).
  - reflexivity.
  - exact (f_equal events_of Hcall).
  - reflexivity.
Defined.

(** X13 on the block with target precision 1 and seed 42: the seed and
    the log level come back as the 77 of [demo_garbage]. *)
Lemma autotuned_build_drops_log_settings_witness :
  ∃ w' evs fp',
    flann_build_index demo_dataset 3 2 None (Some 2%positive) demo_world
    = Ret (Some 2%positive) w' evs
    ∧ mem_params w' !! 2%positive = Some fp'
    ∧ log_level fp' = 77
    ∧ log_destination fp' = None
    ∧ random_seed fp' = 77.
Proof.
  demo_returns (flann_build_index demo_dataset 3 2 None (Some 2%positive)
                  demo_world) (Some 2%positive) Hcall.
  destruct (autotuned_build_drops_log_settings 2%positive
              demo_autotune_params demo_dataset 3 2 None demo_world _ _ _
              eq_refl eq_refl Hcall)
    as (fp' & Hfp' & H1 & H2 & H3).
  eexists _, _, fp'. split_and!; [reflexivity | done ..].
Defined.

(** X14 on the same block: the build weight 1 comes back as the NaN of
    [demo_garbage]. *)
Lemma autotuned_search_drops_weights_witness :
  ∃ w' evs fp',
    flann_find_nearest_neighbors demo_dataset 3 2 demo_query 1
      (Some 1%positive) (Some 1%positive) 2 (Some 2%positive) demo_world
    = Ret 0 w' evs
    ∧ mem_params w' !! 2%positive = Some fp'
    ∧ build_weight fp' = S754_nan
    ∧ memory_weight fp' = S754_nan
    ∧ sample_fraction fp' = S754_nan.
Proof.
  demo_returns (flann_find_nearest_neighbors demo_dataset 3 2 demo_query 1
                  (Some 1%positive) (Some 1%positive) 2 (Some 2%positive)
                  demo_world) 0 Hcall.
  destruct (autotuned_search_drops_weights 2%positive demo_autotune_params
              demo_dataset 3 2 demo_query 1 (Some 1%positive)
              (Some 1%positive) 2 demo_world _ _ eq_refl eq_refl Hcall)
    as (fp' & Hfp' & H1 & H2 & H3 & _).
  eexists _, _, fp'. split_and!; [reflexivity | done ..].
Defined.




(** X18 for a null index on the demo memory. *)
Lemma radius_search_failure_writes_nothing_witness :
  ∃ w' evs,
    flann_radius_search None demo_query (Some 1%positive) (Some 1%positive)
      2 float_one (-1) None demo_world
    = Ret (-1) w' evs
    ∧ mem_ints w' = mem_ints demo_world
    ∧ mem_floats w' = mem_floats demo_world.
Proof.
  demo_returns (flann_radius_search None demo_query (Some 1%positive)
                  (Some 1%positive) 2 float_one (-1) None demo_world)
    (-1) Hcall.
  eexists _, _. split; [reflexivity |].
  exact (radius_search_failure_writes_nothing None demo_query
           (Some 1%positive) (Some 1%positive) 2 float_one (-1) None
           demo_world _ _ Hcall).
Defined.

(** X19 on the block with the algorithm 9. *)
Lemma unknown_algorithm_builds_nothing_witness :
  ∃ w1 e1,
    flann_build_index demo_dataset 3 2 None (Some 6%positive) demo_world
    = Ret None w1
        (e1 ++ [EvLogInfo ("Building index" +:+ newline) [];
                caught_event "Variant: wrong type"]).
Proof.
  destruct (unknown_algorithm_builds_nothing 6%positive
              demo_unknown_algorithm demo_dataset 3 2 None demo_world)
    as (w1 & e1 & _ & _ & Hcall).
  - reflexivity.
  - reflexivity.
  - unfold ARRAY_LEN. simpl. lia.
  - exists w1, e1. by apply Hcall.
Defined.

(** X20 on the demo memory: a search on the live index 1. *)
Lemma queries_keep_indices_and_block_witness :
  ∃ w',
    world_of (flann_find_nearest_neighbors_index (Some 1%positive) demo_query
                1 (Some 1%positive) (Some 1%positive) 2 32 (Some 1%positive)
                demo_world) = Some w'
    ∧ live w' = live demo_world
    ∧ mem_params w' = mem_params demo_world.
Proof.
  demo_returns (flann_find_nearest_neighbors_index (Some 1%positive)
                  demo_query 1 (Some 1%positive) (Some 1%positive) 2 32
                  (Some 1%positive) demo_world) 0 Hcall.
  eexists. split; [reflexivity |].
  destruct (queries_keep_indices_and_block (Some 1%positive) demo_world w)
    as (Hnn & _ & _).
  exact (Hnn (Some 1%positive) demo_query 1 (Some 1%positive)
           (Some 1%positive) 2 32 (f_equal world_of Hcall)).
Defined.

(** X21 with a null [checks] and a null [precision]. *)
Lemma test_helpers_null_index_witness :
  test_with_precision None demo_dataset (3, 2) demo_query (1, 2) [0] (1, 1)
    1 float_one None 0 demo_world
  = Ret float_minus_one demo_world [caught_event "Invalid index"]
  ∧ test_with_checks None demo_dataset (3, 2) demo_query (1, 2) [0] (1, 1)
      1 32 None 0 demo_world
    = Ret float_minus_one demo_world [caught_event "Invalid index"].
Proof.
  apply (test_helpers_null_index demo_dataset (3, 2) demo_query (1, 2) [0]
           (1, 1) 1 float_one 32 None 0 demo_world); reflexivity.
Defined.

